(** * CSV file processing API: the upload validators and the column
      type-inference engine of [api/views.py]

    A shallow embedding of [DataFileViewSet]: [validate_file],
    [validate_dataframe], [infer_and_convert_types] and [process_file].
    Python exceptions are values of a small error monad, floats are
    binary64 numbers kept as exact rationals, and the pandas and Python
    primitives that parse what a cell holds are the fields of a class,
    [Pandas], over which the development is generic. *)

From Stdlib Require Import ZArith QArith Qround Qabs Lia Lqa Ascii String.
From stdpp Require Import base decidable option list strings pretty.

Local Open Scope string_scope.
Local Open Scope Z_scope.

(** ** Python exceptions *)

Module Py.

(** The exception classes the views module can meet.  [OtherError]
    stands for any class that is not listed. *)
Inductive exc_class :=
  | ValueError
  | TypeError
  | ZeroDivisionError
  | OverflowError
  | AttributeError
  | UnicodeDecodeError
  | EmptyDataError
  | ParserError
  | DoesNotExist
  | OtherError.

Record exception := Exc { exc_type : exc_class; exc_str : string }.

(** [isinstance(e, (ValueError, TypeError))].  [UnicodeDecodeError] and
    the two pandas parser errors derive from [ValueError]. *)
Definition is_value_or_type_error (e : exception) : bool :=
  match exc_type e with
  | ValueError | TypeError | UnicodeDecodeError | EmptyDataError
  | ParserError => true
  | ZeroDivisionError | OverflowError | AttributeError | DoesNotExist
  | OtherError => false
  end.

Inductive result (A : Type) :=
  | Return (a : A)
  | Raise (e : exception).
Arguments Return {A} a.
Arguments Raise {A} e.

Definition bind {A B} (m : result A) (k : A -> result B) : result B :=
  match m with
  | Return a => k a
  | Raise e => Raise e
  end.

(** [try: body  except (ValueError, TypeError): pass] followed by
    [rest]; [body] ends in [continue], so [rest] only runs when the
    handler did. *)
Definition try_except_value_type {A} (body : result A) (rest : result A)
  : result A :=
  match body with
  | Return a => Return a
  | Raise e => if is_value_or_type_error e then rest else Raise e
  end.

(** The body of such a [try] raised one of the two classes, so control
    goes on to what follows the [try]. *)
Definition falls_through {A} (body : result A) : Prop :=
  exists e, body = Raise e /\ is_value_or_type_error e = true.

(** [try: body  except Exception as e: raise wrap(e)]. *)
Definition try_reraise {A} (body : result A) (wrap : exception -> exception)
  : result A :=
  match body with
  | Return a => Return a
  | Raise e => Raise (wrap e)
  end.

(** [try: body  except Exception as e: handler(e)]. *)
Definition try_except {A} (body : result A) (handler : exception -> A) : A :=
  match body with
  | Return a => a
  | Raise e => handler e
  end.

End Py.

Import Py.

#[global] Instance result_ret : MRet result := @Return.
#[global] Instance result_bind : MBind result := fun A B k m => bind m k.
#[global] Instance result_fmap : FMap result :=
  fun A B f m => bind m (fun a => Return (f a)).

(** ** Characters and paths *)

Module Path.

(** [str.lower] on one character.  A string is its bytes: the ASCII
    capitals are lowered and every other byte is kept (no character
    outside ASCII lower-cases to one of the four characters of [.csv]). *)
Definition lower_ascii (c : ascii) : ascii :=
  let n := nat_of_ascii c in
  if ((65 <=? n) && (n <=? 90))%nat then ascii_of_nat (n + 32) else c.

Fixpoint lower (s : string) : string :=
  match s with
  | EmptyString => EmptyString
  | String c t => String (lower_ascii c) (lower t)
  end.

(** [str.rfind] of a one-character needle: the highest index holding
    [c], or [-1]. *)
Fixpoint rfind_from (c : ascii) (s : string) (i last : Z) : Z :=
  match s with
  | EmptyString => last
  | String x t => rfind_from c t (i + 1) (if Ascii.eqb x c then i else last)
  end.

Definition rfind (c : ascii) (s : string) : Z := rfind_from c s 0 (-1).

Definition char_at (s : string) (i : Z) : option ascii :=
  if i <? 0 then None else String.get (Z.to_nat i) s.

Definition slice_from (s : string) (i : Z) : string :=
  String.substring (Z.to_nat i) (String.length s - Z.to_nat i) s.

(** The [while filenameIndex < dotIndex] loop of [genericpath._splitext]:
    does a character other than the dot occur in [[i, dot)]? *)
Fixpoint has_stem (s : string) (i : Z) (steps : nat) : bool :=
  match steps with
  | O => false
  | S k =>
      match char_at s i with
      | Some "."%char => has_stem s (i + 1) k
      | _ => true
      end
  end.

(** [os.path.splitext(p)[1]] (POSIX flavour: separator [/], no
    alternative separator). *)
Definition splitext_ext (p : string) : string :=
  let sepIndex := rfind "/"%char p in
  let dotIndex := rfind "."%char p in
  if (sepIndex <? dotIndex)
     && has_stem p (sepIndex + 1) (Z.to_nat (dotIndex - (sepIndex + 1)))
  then slice_from p dotIndex
  else "".

(** [sep.join(parts)]. *)
Fixpoint join (sep : string) (parts : list string) : string :=
  match parts with
  | [] => ""
  | [x] => x
  | x :: rest => x +:+ sep +:+ join sep rest
  end.

End Path.

(** ** The view set's constants and [validate_file] *)

Definition MAX_FILE_SIZE : Z := 10 * 1024 * 1024.
Definition ALLOWED_EXTENSIONS : list string := [".csv"].
Definition MAX_COLUMNS : Z := 100.
Definition MAX_ROWS : Z := 1000000.
Definition SAMPLE_SIZE : nat := 5.

(** An uploaded file as the validators see it: its [name] and its
    [size].  Reading [size] asks the storage backend and may raise;
    [None] is that case. *)
Record file_obj := File { name : string; size : option Z }.

(** [bool(file_obj)]: Django's [File.__bool__] is [bool(self.name)]. *)
Definition truthy (f : file_obj) : bool :=
  negb (String.eqb (name f) "").

Definition invalid_type_message : string :=
  "Invalid file type. Allowed types: " +:+ Path.join ", " ALLOWED_EXTENSIONS.

Definition size_message : string :=
  "File size exceeds " +:+ pretty (MAX_FILE_SIZE / (1024 * 1024)) +:+ "MB limit".

(** [file_obj.size]. *)
Definition get_size (f : file_obj) : result Z :=
  match size f with
  | Some n => Return n
  | None => Raise (Exc OtherError "size unavailable")
  end.

Definition validate_file (f : file_obj) : bool * option string :=
  try_except
    (if negb (truthy f) then Return (false, Some "No file provided")
     else
       let file_extension := Path.lower (Path.splitext_ext (name f)) in
       if negb (bool_decide (file_extension ∈ ALLOWED_EXTENSIONS))
       then Return (false, Some invalid_type_message)
       else
         sz ← get_size f;
         if sz >? MAX_FILE_SIZE then Return (false, Some size_message)
         else Return (true, None))
    (fun _ => (false, Some "File validation failed")).

(** ** Python floats

    A finite float is the rational it stands for.  Python's floats are
    binary64: 53 significant bits, the last place no finer than
    [2^-1074], results rounded to the nearest float, ties to even. *)

(** Rounding to the nearest integer, ties to even. *)
Definition round_half_even (q : Q) : Z :=
  let f := Qfloor q in
  match (q - inject_Z f ?= 1 # 2)%Q with
  | Lt => f
  | Gt => f + 1
  | Eq => if Z.even f then f else f + 1
  end.

Definition pow2 (k : Z) : Q :=
  if 0 <=? k then inject_Z (2 ^ k) else 1 # Z.to_pos (2 ^ (- k)).

(** The exponent of the leading bit of a positive rational. *)
Definition floor_log2 (q : Q) : Z :=
  let d := Z.log2 (Qnum q) - Z.log2 (Zpos (Qden q)) in
  if Qle_bool (pow2 d) q then d else d - 1.

(** The binary64 number nearest to a positive rational: the rational is
    scaled so that its leading bit is bit 52 (or its last place is
    [2^-1074]) and rounded to an integer there. *)
Definition nearest_positive (q : Q) : Q :=
  let e := Z.min (52 - floor_log2 q) 1074 in
  Qred (inject_Z (round_half_even (q * pow2 e)) * pow2 (- e)).

Definition binary64 (q : Q) : Q :=
  match Qnum q with
  | Z0 => 0
  | Zpos _ => nearest_positive q
  | Zneg _ => - nearest_positive (- q)
  end.

(** [a / b] on two ints: the correctly rounded quotient. *)
Definition true_div (a b : Z) : result Q :=
  if b =? 0 then Raise (Exc ZeroDivisionError "division by zero")
  else
    let quotient :=
      binary64 (if 0 <? b then a # Z.to_pos b else - a # Z.to_pos (- b)) in
    if Qle_bool (pow2 1024) quotient || Qle_bool quotient (- pow2 1024)
    then Raise (Exc OverflowError
                  "integer division result too large for a float")
    else Return quotient.

(** [round(x, 2)] on a float [x]: the float nearest to the two-digit
    decimal nearest to [x] (ties to even).  The model keeps that
    decimal, which is what the float prints as. *)
Definition round2 (x : Q) : Q := Qred (round_half_even (x * 100) # 100).

(** ** The pandas and Python primitives the classifier calls *)

(** The value of [float(x)]: a finite number, an infinity or a NaN. *)
Inductive pyfloat :=
  | Finite (q : Q)
  | Infinite
  | NotANumber.

(** [float.is_integer]: finite and without fractional part. *)
Definition is_integer (f : pyfloat) : bool :=
  match f with
  | Finite q => Qnum q mod Zpos (Qden q) =? 0
  | Infinite | NotANumber => false
  end.

(** The library calls whose outcome depends on what a cell holds.  A
    cell is [None] when it is null (NaN) and [Some v] otherwise.
    - [to_numeric_elem v]: [pd.to_numeric(..., errors='raise')] at one
      non-null element; it raises when [v] is not a number;
    - [py_float v]: Python's [float(v)];
    - [to_datetime s]: [pd.to_datetime(s, errors='raise')] on a whole
      column (the parser may settle on one format for the column, so it
      is not taken element by element);
    - [dtype s]: [str(s.dtype)]. *)
Class Pandas (value : Type) := {
  value_eq_dec :: EqDecision value;
  to_numeric_elem : value -> result unit;
  py_float : value -> result pyfloat;
  to_datetime : list (option value) -> result unit;
  dtype : list (option value) -> string
}.

(** The same primitives with another datetime parser. *)
Definition with_to_datetime {value : Type} (P : Pandas value)
    (parser : list (option value) -> result unit) : Pandas value :=
  {| value_eq_dec := value_eq_dec;
     to_numeric_elem := to_numeric_elem;
     py_float := py_float;
     to_datetime := parser;
     dtype := dtype |}.

(** ** Series and data frames *)

Definition len {A} (l : list A) : Z := Z.of_nat (length l).

(** A cell is [None] when it is null; a Series is a column of cells. *)
Abbreviation cell value := (option value) (only parsing).
Abbreviation Series value := (list (option value)) (only parsing).

Section Frame.
Context {value : Type} `{!Pandas value}.

(** A data frame: the column labels and the rows.  A row shorter than
    the label list is null in the missing positions. *)
Record DataFrame := Frame {
  columns : list string;
  rows : list (list (cell value))
}.

(** [df.empty]: some axis has length 0. *)
Definition empty (df : DataFrame) : bool :=
  (len (columns df) =? 0) || (len (rows df) =? 0).

(** The column at position [i]. *)
Definition iloc_column (df : DataFrame) (i : nat) : Series value :=
  map (fun row => default None (row !! i)) (rows df).

Fixpoint positions_from (i : nat) (labels : list string) (column : string)
  : list nat :=
  match labels with
  | [] => []
  | l :: rest =>
      if decide (l = column) then i :: positions_from (S i) rest column
      else positions_from (S i) rest column
  end.

(** [df[column]]: a Series when the label occurs once, a frame of all
    the columns carrying it when it is duplicated. *)
Inductive selection :=
  | OneSeries (s : Series value)
  | SubFrame (cols : list (Series value)).

Definition getitem (df : DataFrame) (column : string) : selection :=
  match positions_from 0 (columns df) column with
  | [i] => OneSeries (iloc_column df i)
  | ps => SubFrame (map (iloc_column df) ps)
  end.

(** [Index.duplicated()] (keep='first'): marks every occurrence after
    the first. *)
Fixpoint duplicated_from (seen labels : list string) : list bool :=
  match labels with
  | [] => []
  | l :: rest =>
      bool_decide (l ∈ seen) :: duplicated_from (l :: seen) rest
  end.

Definition duplicated (labels : list string) : list bool :=
  duplicated_from [] labels.

Definition any (bs : list bool) : bool := existsb id bs.

(** [Series.dropna()], [Series.isna().sum()]. *)
Definition dropna (s : Series value) : list value := omap id s.

Definition isna_sum (s : Series value) : Z :=
  len (filter (fun c : cell value => c = None) s).

(** [Series.unique()]: the distinct values in order of first
    appearance; the null, when present, is one of them. *)
Fixpoint unique_from {A} `{EqDecision A} (seen l : list A) : list A :=
  match l with
  | [] => []
  | x :: rest =>
      if decide (x ∈ seen) then unique_from seen rest
      else x :: unique_from (x :: seen) rest
  end.

Definition unique (s : Series value) : Series value := unique_from [] s.

(** [Series.nunique()]: [len(remove_na(self.unique()))]. *)
Definition nunique (s : Series value) : Z := len (dropna (unique s)).

(** ** [validate_dataframe] *)

Definition too_many_columns_message : string :=
  "Too many columns. Maximum allowed: " +:+ pretty MAX_COLUMNS.

Definition too_many_rows_message : string :=
  "Too many rows. Maximum allowed: " +:+ pretty MAX_ROWS.

(** None of the operations of the body raises on a data frame, so the
    [except Exception] handler of the source has no counterpart. *)
Definition validate_dataframe (df : DataFrame) : bool * option string :=
  if empty df then (false, Some "The file is empty")
  else if len (columns df) >? MAX_COLUMNS
  then (false, Some too_many_columns_message)
  else if len (rows df) >? MAX_ROWS
  then (false, Some too_many_rows_message)
  else if any (duplicated (columns df))
  then (false, Some "Duplicate column names found")
  else (true, None).

(** ** [infer_and_convert_types] *)

Inductive kind := integer | float | datetime | category | text | error.

(** One entry of [type_info]; a key the entry does not carry is [None]. *)
Record column_info := ColumnInfo {
  type : kind;
  sample_values : option (list value);
  original_type : option string;
  null_count : option Z;
  unique_count : option Z;
  unique_ratio : option Q;
  error_text : option string
}.

(** [pd.to_numeric(s, errors='raise')]: nulls pass, the first element
    that is not a number raises. *)
Fixpoint to_numeric (s : Series value) : result unit :=
  match s with
  | [] => Return ()
  | None :: rest => to_numeric rest
  | Some v :: rest => _ ← to_numeric_elem v; to_numeric rest
  end.

(** [all(float(x).is_integer() for x in xs)]: stops at the first value
    that is not integral, raises if [float] does before that. *)
Fixpoint all_is_integer (xs : list value) : result bool :=
  match xs with
  | [] => Return true
  | x :: rest =>
      f ← py_float x;
      if is_integer f then all_is_integer rest else Return false
  end.

(** The five keys every typed entry carries. *)
Definition typed (k : kind) (sample : list value) (s : Series value)
    (ratio : option Q) : column_info :=
  {| type := k;
     sample_values := Some sample;
     original_type := Some (dtype s);
     null_count := Some (isna_sum s);
     unique_count := Some (nunique s);
     unique_ratio := ratio;
     error_text := None |}.

Definition numeric_inference (sample : list value) (s : Series value)
  : result column_info :=
  _ ← to_numeric s;
  b ← all_is_integer (dropna s);
  Return (typed (if (b : bool) then integer else float) sample s None).

Definition datetime_inference (sample : list value) (s : Series value)
  : result column_info :=
  _ ← to_datetime s;
  Return (typed datetime sample s None).

Definition categorical_inference (sample : list value) (s : Series value)
  : result column_info :=
  ratio ← true_div (len (unique s)) (len s);
  if Qlt_le_dec ratio (1 # 2)
  then Return (typed category sample s (Some (round2 ratio)))
  else Return (typed text sample s (Some (round2 ratio))).

(** The body of the per-column [try], for a column that is a Series. *)
Definition infer_series (s : Series value) : result column_info :=
  let sample := take SAMPLE_SIZE (dropna s) in
  try_except_value_type (numeric_inference sample s)
    (try_except_value_type (datetime_inference sample s)
       (categorical_inference sample s)).

(** The same for [df[column]]: a duplicated label selects a frame, and
    [.tolist()] is not an attribute of a frame. *)
Definition infer_selection (sel : selection) : result column_info :=
  match sel with
  | OneSeries s => infer_series s
  | SubFrame _ =>
      Raise (Exc AttributeError "'DataFrame' object has no attribute 'tolist'")
  end.

Definition error_info (e : exception) : column_info :=
  {| type := error;
     sample_values := None;
     original_type := None;
     null_count := None;
     unique_count := None;
     unique_ratio := None;
     error_text := Some (exc_str e) |}.

(** One iteration of the loop: the per-column [try] with its
    [except Exception as column_error]. *)
Definition classify_column (df : DataFrame) (column : string) : column_info :=
  try_except (infer_selection (getitem df column)) error_info.

(** [d[k] = v] on a dict that keeps insertion order. *)
Fixpoint dict_set {V} (d : list (string * V)) (k : string) (v : V)
  : list (string * V) :=
  match d with
  | [] => [(k, v)]
  | (k', v') :: rest =>
      if decide (k' = k) then (k', v) :: rest
      else (k', v') :: dict_set rest k v
  end.

(** The loop over [df.columns]. *)
Definition infer_loop (df : DataFrame) : list (string * column_info) :=
  foldl (fun (type_info : list (string * column_info)) (column : string) =>
           dict_set type_info column (classify_column df column))
        [] (columns df).

(** The outer [try] re-raises whatever escapes the loop as a
    [ValueError]. *)
Definition infer_and_convert_types (df : DataFrame)
  : result (list (string * column_info)) :=
  try_reraise (Return (infer_loop df))
    (fun e => Exc ValueError ("Failed to infer column types: " +:+ exc_str e)).

End Frame.

Arguments DataFrame value : clear implicits.
Arguments selection value : clear implicits.
Arguments column_info value : clear implicits.

(** [type_info]: the column labels with their entries, in insertion
    order. *)
Abbreviation type_info_dict value :=
  (list (string * column_info value)) (only parsing).

(** ** [process_file] *)

(** The payload of a successful response, key by key. *)
Module Payload.

Record response_data (value : Type) := ResponseData {
  status : string;
  file_name : string;
  file_size : Z;
  total_rows : Z;
  total_columns : Z;
  column_types : type_info_dict value;
  columns : list string;
  sample_data : list (list (string * cell value))
}.
Arguments ResponseData {value}.
Arguments status {value}.
Arguments file_name {value}.
Arguments file_size {value}.
Arguments total_rows {value}.
Arguments total_columns {value}.
Arguments column_types {value}.
Arguments columns {value}.
Arguments sample_data {value}.

End Payload.

Section Process.
Context {value : Type} `{!Pandas value}.

(** [Response(data, status=...)]: the success payload (HTTP 200) or an
    [{'error': message}] body with its status code. *)
Inductive Response :=
  | Success (data : Payload.response_data value)
  | Failure (status_code : Z) (error_message : option string).

Definition HTTP_400_BAD_REQUEST : Z := 400.
Definition HTTP_404_NOT_FOUND : Z := 404.
Definition HTTP_500_INTERNAL_SERVER_ERROR : Z := 500.

Definition ENCODINGS : list string := ["utf-8"; "latin1"; "iso-8859-1"].

(** The [for encoding in ...] loop with its [else]: the first encoding
    that does not raise [UnicodeDecodeError] decides; [None] is the
    [else] branch. *)
Fixpoint read_with_encodings (read_csv : string -> result (DataFrame value))
    (encodings : list string) : result (option (DataFrame value)) :=
  match encodings with
  | [] => Return None
  | encoding :: rest =>
      match read_csv encoding with
      | Return df => Return (Some df)
      | Raise e =>
          match exc_type e with
          | UnicodeDecodeError => read_with_encodings read_csv rest
          | _ => Raise e
          end
      end
  end.

(** One record of [to_dict(orient='records')]. *)
Fixpoint record_from (i : nat) (labels : list string) (row : list (cell value))
    (acc : list (string * cell value)) : list (string * cell value) :=
  match labels with
  | [] => acc
  | l :: rest =>
      record_from (S i) rest row (dict_set acc l (default None (row !! i)))
  end.

Definition to_dict_records (df : DataFrame value)
  : list (list (string * cell value)) :=
  map (fun row => record_from 0 (columns df) row []) (rows df).

Definition head (n : nat) (df : DataFrame value) : DataFrame value :=
  Frame (columns df) (take n (rows df)).

(** The [try] around loading, validating and inferring, with its
    [except pd.errors.EmptyDataError] and [except pd.errors.ParserError]. *)
Definition load_and_analyse
    (engine : DataFrame value -> result (type_info_dict value))
    (file : file_obj) (read_csv : string -> result (DataFrame value))
  : result Response :=
  let body : result Response :=
    loaded ← read_with_encodings read_csv ENCODINGS;
    match loaded with
    | None =>
        Return (Failure HTTP_400_BAD_REQUEST
                  (Some "Unable to decode file with supported encodings"))
    | Some df =>
        let '(is_valid, error_message) := validate_dataframe df in
        if negb is_valid
        then Return (Failure HTTP_400_BAD_REQUEST error_message)
        else
          type_info ← engine df;
          sz ← get_size file;
          Return (Success
            {| Payload.status := "success";
               Payload.file_name := name file;
               Payload.file_size := sz;
               Payload.total_rows := len (rows df);
               Payload.total_columns := len (columns df);
               Payload.column_types := type_info;
               Payload.columns := columns df;
               Payload.sample_data := to_dict_records (head SAMPLE_SIZE df) |})
    end in
  match body with
  | Return r => Return r
  | Raise e =>
      match exc_type e with
      | EmptyDataError =>
          Return (Failure HTTP_400_BAD_REQUEST (Some "The file is empty"))
      | ParserError =>
          Return (Failure HTTP_400_BAD_REQUEST (Some "Invalid CSV format"))
      | _ => Raise e
      end
  end.

(** [process_file], with the inference method it dispatches to as a
    parameter.  [get_object] is the outcome of [self.get_object()] (the
    stored file, or the exception raised while fetching it) and
    [read_csv] the outcome of [pd.read_csv] for each encoding. *)
Definition process_file_with
    (engine : DataFrame value -> result (type_info_dict value))
    (get_object : result file_obj) (read_csv : string -> result (DataFrame value))
  : Response :=
  let body : result Response :=
    file ← get_object;
    if negb (truthy file)
    then Return (Failure HTTP_404_NOT_FOUND (Some "File not found on server"))
    else
      let '(is_valid, error_message) := validate_file file in
      if negb is_valid
      then Return (Failure HTTP_400_BAD_REQUEST error_message)
      else load_and_analyse engine file read_csv in
  match body with
  | Return r => r
  | Raise e =>
      match exc_type e with
      | DoesNotExist => Failure HTTP_404_NOT_FOUND (Some "File not found")
      | _ =>
          Failure HTTP_500_INTERNAL_SERVER_ERROR
            (Some ("An unexpected error occurred: " +:+ exc_str e))
      end
  end.

Definition process_file : result file_obj -> (string -> result (DataFrame value))
                          -> Response :=
  process_file_with infer_and_convert_types.

End Process.

(** ** The spec's names for the four structural rejections *)

Inductive StructuralError :=
  | EmptyTable
  | TooManyColumns
  | TooManyRows
  | DuplicateColumnNames.

(** What [validate_dataframe] returns for each of them. *)
Definition rejected (e : StructuralError) : bool * option string :=
  match e with
  | EmptyTable => (false, Some "The file is empty")
  | TooManyColumns => (false, Some "Too many columns. Maximum allowed: 100")
  | TooManyRows => (false, Some "Too many rows. Maximum allowed: 1000000")
  | DuplicateColumnNames => (false, Some "Duplicate column names found")
  end.

Definition accepted : bool * option string := (true, None).

(** ** An instance of the primitives: cells that hold text

    The cells of an [object] column: each holds a piece of text.  The
    numeric parser accepts plain decimal literals, the datetime parser
    ISO dates ([YYYY-MM-DD]); both reject with a [ValueError], as the
    libraries do on text they cannot parse. *)

Module Text.

Definition digit (c : ascii) : option Z :=
  let n := nat_of_ascii c in
  if ((48 <=? n) && (n <=? 57))%nat then Some (Z.of_nat n - 48) else None.

Fixpoint digits_value (s : string) (acc : Z) : option Z :=
  match s with
  | EmptyString => Some acc
  | String c t =>
      match digit c with
      | Some d => digits_value t (10 * acc + d)
      | None => None
      end
  end.

(** The text before the first dot, and the text after it if there is one. *)
Fixpoint split_dot (s : string) : string * option string :=
  match s with
  | EmptyString => (EmptyString, None)
  | String c t =>
      if Ascii.eqb c "."%char then (EmptyString, Some t)
      else let '(a, b) := split_dot t in (String c a, b)
  end.

Definition parse_unsigned (s : string) : option Q :=
  let '(whole, fraction) := split_dot s in
  if String.eqb whole "" then None
  else
    match digits_value whole 0, fraction with
    | Some n, None => Some (inject_Z n)
    | Some n, Some f =>
        match digits_value f 0 with
        | Some m =>
            let scale := 10 ^ Z.of_nat (String.length f) in
            Some (Qred ((n * scale + m) # Z.to_pos scale))
        | None => None
        end
    | None, _ => None
    end.

Definition parse_decimal (s : string) : option Q :=
  match s with
  | String "-"%char t => option_map Qopp (parse_unsigned t)
  | _ => parse_unsigned s
  end.

Definition is_digit (c : ascii) : bool :=
  match digit c with Some _ => true | None => false end.

Definition is_iso_date (s : string) : bool :=
  match list_ascii_of_string s with
  | [y1; y2; y3; y4; d1; m1; m2; d2; a1; a2] =>
      forallb is_digit [y1; y2; y3; y4; m1; m2; a1; a2]
      && Ascii.eqb d1 "-"%char && Ascii.eqb d2 "-"%char
  | _ => false
  end.

#[export] Instance text_pandas : Pandas string := {|
  value_eq_dec := _;
  to_numeric_elem v :=
    match parse_decimal v with
    | Some _ => Return ()
    | None => Raise (Exc ValueError ("Unable to parse string '" +:+ v +:+ "'"))
    end;
  py_float v :=
    match parse_decimal v with
    | Some q => Return (Finite q)
    | None =>
        Raise (Exc ValueError
                 ("could not convert string to float: '" +:+ v +:+ "'"))
    end;
  to_datetime s :=
    if forallb is_iso_date (omap id s) then Return ()
    else Raise (Exc ValueError "Unknown datetime string format");
  dtype _ := "object"
|}.

(** One-column frames for the examples. *)
Definition one_column (label : string) (s : list (option string))
  : DataFrame string :=
  Frame [label] (map (fun c => [c]) s).

Definition all_null : DataFrame string := one_column "x" [None; None; None].

Definition colours_with_gap : list (option string) :=
  [Some "red"; None; Some "red"; Some "red"].

Definition sizes_with_gaps : list (option string) :=
  [Some "small"; None; None; Some "large"; Some "small"; Some "small"].

Definition three_of_ten : list (option string) :=
  map Some ["red"; "green"; "blue"; "red"; "green"; "blue"; "red"; "green";
            "blue"; "red"].

Definition eight_of_ten : list (option string) :=
  map Some ["ash"; "birch"; "cedar"; "elm"; "fir"; "oak"; "pine"; "yew";
            "ash"; "birch"].

Definition integers : list (option string) :=
  [Some "1"; Some "2"; None; Some "3"].

Definition decimals : list (option string) :=
  [Some "1"; Some "2.5"; None; Some "3"].

Definition dates : list (option string) :=
  [Some "2023-01-01"; Some "2023-02-01"].


(** The entries the classifier returns on two of them. *)
Definition colours_info : column_info string :=
  {| type := text;
     sample_values := Some ["red"; "red"; "red"];
     original_type := Some "object";
     null_count := Some 1;
     unique_count := Some 1;
     unique_ratio := Some (1 # 2)%Q;
     error_text := None |}.

Definition sizes_info : column_info string :=
  {| type := text;
     sample_values := Some ["small"; "large"; "small"; "small"];
     original_type := Some "object";
     null_count := Some 2;
     unique_count := Some 2;
     unique_ratio := Some (1 # 2)%Q;
     error_text := None |}.

(** A table of 101 columns and one row, and an upload that passes
    [validate_file]. *)
Definition wide_table : DataFrame string :=
  Frame (replicate 101 "c") [[]].

Definition upload : file_obj := File "uploads/data.csv" (Some 2048).

Definition mixed_table : DataFrame string :=
  Frame ["n"; "x"; "when"; "colour"]
        [[Some "1"; Some "1"; Some "2023-01-01"; Some "red"];
         [Some "2"; Some "2.5"; Some "2023-02-01"; None];
         [Some "3"; Some "3"; None; Some "red"];
         [None; Some "4"; Some "2023-04-01"; Some "red"]].

End Text.

(** ** A second instance: a datetime parser that overflows

    As [Text], except that [to_datetime] fails with an exception of a
    class outside [(ValueError, TypeError)] on a column that holds the
    text ["overflow"]; it exercises the per-column handler. *)

Module Overflowing.

#[export] Instance overflowing_pandas : Pandas string :=
  with_to_datetime Text.text_pandas
    (fun s =>
       if bool_decide (Some "overflow" ∈ s)
       then Raise (Exc OtherError "signed integer is greater than maximum")
       else to_datetime (Pandas := Text.text_pandas) s).

Definition faulty_table : DataFrame string :=
  Frame ["a"; "b"; "c"]
        [[Some "1"; Some "overflow"; Some "2023-01-01"];
         [Some "2"; Some "x"; Some "2023-02-01"]].

End Overflowing.

(** ** Loading: encodings the file does not decode with *)

(** [pd.read_csv] raised [UnicodeDecodeError] for this encoding, so the
    loop of [process_file] goes on to the next one. *)
Definition undecodable {value : Type}
    (read_csv : string -> result (DataFrame value)) (encoding : string)
  : Prop :=
  exists e, read_csv encoding = Raise e /\ exc_type e = UnicodeDecodeError.

#[global] Instance exc_class_eq_dec : EqDecision exc_class.
Proof. solve_decision. Defined.


(** ** Loaders and tables for the examples of [process_file] *)

Module Uploads.

Definition undecodable_error : exception :=
  Exc UnicodeDecodeError "'utf-8' codec can't decode byte 0xe9 in position 0".

(** A file that decodes as latin1 but not as utf-8. *)
Definition latin1_file (encoding : string) : result (DataFrame string) :=
  if String.eqb encoding "utf-8" then Raise undecodable_error
  else Return Text.mixed_table.

(** A file that no encoding decodes, and a file of zero bytes. *)
Definition binary_file (encoding : string) : result (DataFrame string) :=
  Raise undecodable_error.

Definition empty_file (encoding : string) : result (DataFrame string) :=
  Raise (Exc EmptyDataError "No columns to parse from file").

(** A table with a repeated label, and a table of a header line only. *)
Definition repeated_labels : DataFrame string :=
  Frame ["a"; "b"; "a"] [[Some "1"; Some "x"; Some "2"]].

Definition header_only : DataFrame string := Frame ["a"; "b"] [].

End Uploads.

(** ** A third instance: blank cells

    As [Text], except that [pd.to_numeric] takes the empty string for a
    missing number (it converts it to NaN and goes on), while
    [float('')] raises [ValueError]. *)

Module Blank.




End Blank.

(** ** A fourth instance: a datetime parser that settles on one format

    As [Text], except that [pd.to_datetime] takes the format of the
    first non-null cell (year first with dashes, or day first with
    slashes) for the whole column and raises [ValueError] at a cell in
    another format. *)

Module Locking.

Definition is_slash_date (s : string) : bool :=
  match list_ascii_of_string s with
  | [a1; a2; d1; m1; m2; d2; y1; y2; y3; y4] =>
      forallb Text.is_digit [a1; a2; m1; m2; y1; y2; y3; y4]
      && Ascii.eqb d1 "/"%char && Ascii.eqb d2 "/"%char
  | _ => false
  end.

Definition locked_to_datetime (s : list (option string)) : result unit :=
  match omap id s with
  | [] => Return ()
  | first :: rest =>
      if Text.is_iso_date first then
        if forallb Text.is_iso_date rest then Return ()
        else Raise (Exc ValueError "time data doesn't match format %Y-%m-%d")
      else if is_slash_date first then
        if forallb is_slash_date rest then Return ()
        else Raise (Exc ValueError "time data doesn't match format %d/%m/%Y")
      else Raise (Exc ValueError "Unknown datetime string format")
  end.

#[export] Instance locking_pandas : Pandas string :=
  with_to_datetime Text.text_pandas locked_to_datetime.

Definition mixed_dates : list (option string) :=
  [Some "2023-01-01"; Some "01/02/2023"].

End Locking.

(** * Properties *)

(** ** [validate_file] *)

Lemma lower_ascii_dot (c : ascii) :
  Path.lower_ascii c = "."%char <-> c = "."%char.
Proof.
  destruct c as [[] [] [] [] [] [] [] []]; vm_compute;
    split; intros E; first [reflexivity | discriminate E].
Qed.

Lemma lower_ascii_letter (c : ascii) :
  (Path.lower_ascii c = "c" <-> c = "c" \/ c = "C")%char /\
  (Path.lower_ascii c = "s" <-> c = "s" \/ c = "S")%char /\
  (Path.lower_ascii c = "v" <-> c = "v" \/ c = "V")%char.
Proof.
  destruct c as [[] [] [] [] [] [] [] []]; vm_compute;
    repeat split; intros E;
    first [ discriminate E | by left | by right
          | destruct E as [E | E]; first [discriminate E | reflexivity] ].
Qed.

(** The extensions that lower-case to [.csv] are its eight spellings. *)
Lemma lower_is_csv (e : string) :
  Path.lower e = ".csv" <->
  exists a b c,
    e = String "." (String a (String b (String c ""))) /\
    (a = "c" \/ a = "C")%char /\ (b = "s" \/ b = "S")%char /\
    (c = "v" \/ c = "V")%char.
Proof.
  split.
  - destruct e as [| d [| a [| b [| c [| x e]]]]]; simpl; try discriminate.
    intros [= Hd Ha Hb Hc].
    apply lower_ascii_dot in Hd as ->.
    apply (lower_ascii_letter a) in Ha.
    apply (lower_ascii_letter b) in Hb.
    apply (lower_ascii_letter c) in Hc.
    by exists a, b, c.
  - intros (a & b & c & -> & Ha & Hb & Hc); simpl.
    apply (lower_ascii_letter a) in Ha as ->.
    apply (lower_ascii_letter b) in Hb as ->.
    apply (lower_ascii_letter c) in Hc as ->.
    reflexivity.
Qed.

(** C9.  The extension check of [validate_file] is case-insensitive: a
    file that is present is turned away with the invalid-file-type
    message exactly when the lower-cased extension of its name is not
    [.csv], whatever its size is (the size is only read afterwards); and
    an extension lower-cases to [.csv] exactly when it is one of the
    eight spellings of [.csv].  So [DATA.CSV] and [data.Csv] pass. *)
Theorem validate_file_extension_case_insensitive (f : file_obj) :
  (validate_file f = (false, Some invalid_type_message) <->
     truthy f = true /\ Path.lower (Path.splitext_ext (name f)) <> ".csv")
  /\ (truthy f = true ->
      Path.lower (Path.splitext_ext (name f)) = ".csv" ->
      validate_file f = (true, None) \/
      validate_file f = (false, Some size_message) \/
      validate_file f = (false, Some "File validation failed"))
  /\ (Path.lower (Path.splitext_ext (name f)) = ".csv" <->
      exists a b c,
        Path.splitext_ext (name f)
        = String "." (String a (String b (String c ""))) /\
        (a = "c" \/ a = "C")%char /\ (b = "s" \/ b = "S")%char /\
        (c = "v" \/ c = "V")%char)
  /\ validate_file (File "DATA.CSV" (size f))
     = validate_file (File "data.csv" (size f))
  /\ validate_file (File "data.Csv" (size f))
     = validate_file (File "data.csv" (size f)).
Proof.
  split; [| split; [| split; [apply lower_is_csv | split]]].
  - unfold validate_file, ALLOWED_EXTENSIONS.
    destruct (truthy f); simpl.
    + destruct (decide (Path.lower (Path.splitext_ext (name f)) = ".csv"))
        as [E | NE].
      * rewrite E. rewrite bool_decide_eq_true_2 by (by apply list_elem_of_singleton). simpl.
        split; [| intros [_ H]; by destruct H].
        unfold get_size. destruct (size f) as [n |]; simpl.
        -- destruct (n >? MAX_FILE_SIZE); vm_compute; discriminate.
        -- discriminate.
      * rewrite bool_decide_eq_false_2 by (by rewrite list_elem_of_singleton). simpl.
        split; [by intros _ | done].
    + split; [discriminate | intros [H _]; discriminate H].
  - intros Ht E. unfold validate_file, ALLOWED_EXTENSIONS.
    rewrite Ht, E. rewrite bool_decide_eq_true_2 by (by apply list_elem_of_singleton). simpl.
    unfold get_size. destruct (size f) as [n |]; simpl.
    + destruct (n >? MAX_FILE_SIZE); auto.
    + auto.
  - reflexivity.
  - reflexivity.
Qed.

Example validate_file_upper :
  validate_file (File "DATA.CSV" (Some 12)) = (true, None).
Proof. vm_compute. reflexivity. Qed.

Example validate_file_mixed :
  validate_file (File "uploads/data.Csv" (Some 12)) = (true, None).
Proof. vm_compute. reflexivity. Qed.

Example validate_file_txt :
  validate_file (File "data.csv.txt" (Some 12))
  = (false, Some "Invalid file type. Allowed types: .csv").
Proof. vm_compute. reflexivity. Qed.

Example validate_file_hidden :
  validate_file (File "dir.d/.csv" (Some 12))
  = (false, Some "Invalid file type. Allowed types: .csv").
Proof. vm_compute. reflexivity. Qed.

Example validate_file_big_wrong_type :
  validate_file (File "data.xls" (Some 99999999))
  = (false, Some "Invalid file type. Allowed types: .csv").
Proof. vm_compute. reflexivity. Qed.

Example validate_file_big :
  validate_file (File "a.csv" (Some 10485761))
  = (false, Some "File size exceeds 10MB limit").
Proof. vm_compute. reflexivity. Qed.

Example validate_file_no_name :
  validate_file (File "" (Some 1)) = (false, Some "No file provided").
Proof. vm_compute. reflexivity. Qed.

(** ** [validate_dataframe] *)

Section Validation.
Context {value : Type}.
Implicit Types df : DataFrame value.

Lemma any_duplicated_from (seen labels : list string) :
  any (duplicated_from seen labels) = false <->
  NoDup labels /\ (forall x, x ∈ labels -> x ∉ seen).
Proof.
  revert seen; induction labels as [| l rest IH]; intros seen.
  - split; [| done].
    intros _; split; [constructor |]. intros x Hx; by apply elem_of_nil in Hx.
  - change (any (duplicated_from seen (l :: rest)))
      with (bool_decide (l ∈ seen) || any (duplicated_from (l :: seen) rest)).
    rewrite orb_false_iff, IH, bool_decide_eq_false, NoDup_cons.
    split.
    + intros (Hl & Hnd & Hseen). split; [split; [| done] |].
      * intros Hin. apply (Hseen l Hin). by left.
      * intros x [-> | Hx]%elem_of_cons; [done |].
        intros Hs. apply (Hseen x Hx). by right.
    + intros ([Hl Hnd] & Hseen). split; [apply Hseen; by left |].
      split; [done |].
      intros x Hx [-> | Hs]%elem_of_cons; [done |].
      apply (Hseen x); [by right | done].
Qed.

(** [df.columns.duplicated().any()] holds exactly when a label repeats. *)
Lemma any_duplicated (labels : list string) :
  any (duplicated labels) = false <-> NoDup labels.
Proof.
  unfold duplicated. rewrite any_duplicated_from.
  split; [by intros [H _] | intros H; split; [done |]].
  intros x _ Hx; by apply elem_of_nil in Hx.
Qed.

Lemma len_nonneg {A} (l : list A) : 0 <= len l.
Proof. unfold len; lia. Qed.

(** The five ways out of [validate_dataframe], each with the condition
    under which it is taken. *)
Lemma validate_dataframe_cases df :
  let ncols := len (columns df) in
  let nrows := len (rows df) in
  (validate_dataframe df = rejected EmptyTable /\ (nrows = 0 \/ ncols = 0)) \/
  (validate_dataframe df = rejected TooManyColumns /\
     0 < nrows /\ MAX_COLUMNS < ncols) \/
  (validate_dataframe df = rejected TooManyRows /\
     0 < ncols <= MAX_COLUMNS /\ MAX_ROWS < nrows) \/
  (validate_dataframe df = rejected DuplicateColumnNames /\
     0 < ncols <= MAX_COLUMNS /\ 0 < nrows <= MAX_ROWS /\
     ~ NoDup (columns df)) \/
  (validate_dataframe df = accepted /\
     0 < ncols <= MAX_COLUMNS /\ 0 < nrows <= MAX_ROWS /\
     NoDup (columns df)).
Proof.
  intros ncols nrows. unfold validate_dataframe, empty.
  pose proof (len_nonneg (columns df)) as Hc.
  pose proof (len_nonneg (rows df)) as Hr.
  fold ncols nrows in Hc, Hr |- *.
  destruct (Z.eqb_spec ncols 0) as [Ec | Ec]; simpl; [left; auto |].
  destruct (Z.eqb_spec nrows 0) as [Er | Er]; simpl; [left; auto |].
  right.
  destruct (Z.gtb_spec ncols MAX_COLUMNS) as [Gc | Gc].
  { left. split; [reflexivity | lia]. }
  right.
  destruct (Z.gtb_spec nrows MAX_ROWS) as [Gr | Gr].
  { left. split; [reflexivity | lia]. }
  right.
  destruct (any (duplicated (columns df))) eqn:Hd.
  - left. split; [reflexivity |]. repeat split; try lia.
    intros Hnd. apply any_duplicated in Hnd. congruence.
  - right. split; [reflexivity |]. repeat split; try lia.
    by apply any_duplicated.
Qed.

End Validation.

(** C7.  [validate_dataframe] makes four checks in order and stops at
    the first that fails: an empty table (no row or no column) is
    [EmptyTable]; otherwise more than 100 columns is [TooManyColumns];
    otherwise more than 1,000,000 rows is [TooManyRows]; otherwise a
    repeated column name is [DuplicateColumnNames]; a table passing all
    four is accepted.  The outcome depends on the column names and the
    number of rows only, never on what the cells hold, and [a, a, b]
    with between 1 and 1,000,000 rows is rejected for its duplicate
    whatever the rows hold. *)
Theorem validate_dataframe_four_checks_in_order
    {value : Type} (df : DataFrame value) :
  let ncols := len (columns df) in
  let nrows := len (rows df) in
  (validate_dataframe df = rejected EmptyTable <-> nrows = 0 \/ ncols = 0) /\
  (validate_dataframe df = rejected TooManyColumns <->
     0 < nrows /\ MAX_COLUMNS < ncols) /\
  (validate_dataframe df = rejected TooManyRows <->
     0 < ncols <= MAX_COLUMNS /\ MAX_ROWS < nrows) /\
  (validate_dataframe df = rejected DuplicateColumnNames <->
     0 < ncols <= MAX_COLUMNS /\ 0 < nrows <= MAX_ROWS /\
     ~ NoDup (columns df)) /\
  (validate_dataframe df = accepted <->
     0 < ncols <= MAX_COLUMNS /\ 0 < nrows <= MAX_ROWS /\
     NoDup (columns df)) /\
  (forall df' : DataFrame value,
     columns df' = columns df -> len (rows df') = len (rows df) ->
     validate_dataframe df' = validate_dataframe df) /\
  (columns df = ["a"; "a"; "b"] -> 0 < nrows <= MAX_ROWS ->
     validate_dataframe df = rejected DuplicateColumnNames).
Proof.
  intros ncols nrows.
  assert (Hfive :
    (validate_dataframe df = rejected EmptyTable <-> nrows = 0 \/ ncols = 0) /\
    (validate_dataframe df = rejected TooManyColumns <->
       0 < nrows /\ MAX_COLUMNS < ncols) /\
    (validate_dataframe df = rejected TooManyRows <->
       0 < ncols <= MAX_COLUMNS /\ MAX_ROWS < nrows) /\
    (validate_dataframe df = rejected DuplicateColumnNames <->
       0 < ncols <= MAX_COLUMNS /\ 0 < nrows <= MAX_ROWS /\
       ~ NoDup (columns df)) /\
    (validate_dataframe df = accepted <->
       0 < ncols <= MAX_COLUMNS /\ 0 < nrows <= MAX_ROWS /\
       NoDup (columns df))).
  { pose proof (len_nonneg (columns df)) as Hc.
    pose proof (len_nonneg (rows df)) as Hr.
    fold ncols nrows in Hc, Hr.
    unfold MAX_COLUMNS, MAX_ROWS in *.
    destruct (validate_dataframe_cases df)
      as [[E H] | [[E H] | [[E H] | [[E H] | [E H]]]]];
      fold ncols nrows in H; unfold MAX_COLUMNS, MAX_ROWS in H; rewrite E;
      repeat split; intros; try discriminate; try done; try lia;
      try tauto. }
  destruct Hfive as (H1 & H2 & H3 & H4 & H5).
  repeat (split; [assumption |]).
  split.
  - intros df' Hcols Hrows. unfold validate_dataframe, empty.
    by rewrite Hcols, Hrows.
  - intros Hcols Hrows. apply H4.
    unfold ncols, len. rewrite Hcols. simpl.
    repeat split; try (unfold MAX_COLUMNS; lia).
    intros Hnd. apply NoDup_cons in Hnd as [Hnotin _].
    apply Hnotin. by left.
Qed.

(** ** Series primitives *)

Section SeriesFacts.
Context {value : Type} `{!Pandas value}.
Implicit Types (s : Series value) (df : DataFrame value).

Lemma bind_Return {A B} (m : result A) (k : A -> result B) (b : B) :
  (m ≫= k) = Return b <-> exists a, m = Return a /\ k a = Return b.
Proof.
  destruct m as [a | e]; simpl; split.
  - intros H; by exists a.
  - by intros (a' & [= ->] & H).
  - discriminate.
  - by intros (a' & [=] & _).
Qed.

Lemma bind_Raise {A B} (m : result A) (k : A -> result B) (e : exception) :
  (m ≫= k) = Raise e <-> m = Raise e \/ exists a, m = Return a /\ k a = Raise e.
Proof.
  destruct m as [a | e']; simpl; split.
  - intros H; right; by exists a.
  - intros [[=] | (a' & [= ->] & H)]; done.
  - intros [= ->]; by left.
  - intros [[= ->] | (a' & [=] & _)]; done.
Qed.

Lemma len_length {A} (l : list A) : len l = Z.of_nat (length l).
Proof. reflexivity. Qed.

Lemma len_iloc_column df i : len (iloc_column df i) = len (rows df).
Proof. unfold len, iloc_column. by rewrite length_map. Qed.

Lemma elem_of_dropna s v : v ∈ dropna s <-> Some v ∈ s.
Proof.
  unfold dropna. rewrite list_elem_of_omap. split.
  - intros (c & Hc & Heq). simpl in Heq. by subst.
  - intros H; by exists (Some v).
Qed.

Lemma dropna_cons_Some v s : dropna (Some v :: s) = v :: dropna s.
Proof. reflexivity. Qed.

Lemma dropna_cons_None s : dropna (None :: s) = dropna s.
Proof. reflexivity. Qed.

Lemma dropna_all_null s : Forall (fun c => c = None) s -> dropna s = [].
Proof.
  induction 1 as [| c s -> _ IH]; [done |]. exact IH.
Qed.

(** [to_numeric] goes through exactly when every non-null element does. *)
Lemma to_numeric_Return s :
  to_numeric s = Return () <->
  Forall (fun v => to_numeric_elem v = Return ()) (dropna s).
Proof.
  induction s as [| [v |] s IH]; simpl.
  - split; [constructor | done].
  - rewrite bind_Return. unfold dropna; simpl. rewrite Forall_cons. split.
    + intros ([] & Hv & Hs). split; [done | by apply IH].
    + intros [Hv Hs]. exists (). split; [done | by apply IH].
  - exact IH.
Qed.

(** When it raises, a non-null element raised that exception. *)
Lemma to_numeric_Raise s e :
  to_numeric s = Raise e ->
  exists v, v ∈ dropna s /\ to_numeric_elem v = Raise e.
Proof.
  induction s as [| [v |] s IH]; simpl; [discriminate | |].
  - rewrite bind_Raise. intros [Hv | ([] & _ & Hs)].
    + exists v. split; [by left | done].
    + destruct (IH Hs) as (w & Hw & Hraise). exists w. split; [by right | done].
  - exact IH.
Qed.

Lemma all_is_integer_Raise (xs : list value) e :
  all_is_integer xs = Raise e -> exists x, x ∈ xs /\ py_float x = Raise e.
Proof.
  induction xs as [| x xs IH]; simpl; [discriminate |].
  rewrite bind_Raise. intros [Hx | (f & Hf & Hrest)].
  - exists x. split; [by left | done].
  - destruct (is_integer f); [| discriminate].
    destruct (IH Hrest) as (y & Hy & Hraise).
    exists y. split; [by right | done].
Qed.


Lemma all_is_integer_skip (pre rest : list value) (fs : list pyfloat) :
  Forall2 (fun v f => py_float v = Return f) pre fs ->
  forallb is_integer fs = true ->
  all_is_integer (pre ++ rest)%list = all_is_integer rest.
Proof.
  induction 1 as [| v f pre fs Hv _ IH]; intros Hint; [done |].
  simpl in Hint. apply andb_prop in Hint as [Hf Hfs].
  cbn [app all_is_integer]. rewrite Hv. simpl. rewrite Hf. by apply IH.
Qed.

(** *** [unique] *)

Lemma unique_from_spec {A} `{EqDecision A} (seen l : list A) :
  NoDup (unique_from seen l) /\
  (forall x, x ∈ unique_from seen l <-> x ∈ l /\ x ∉ seen).
Proof.
  revert seen; induction l as [| a l IH]; intros seen; simpl.
  - split; [constructor |]. intros x. rewrite elem_of_nil. tauto.
  - destruct (decide (a ∈ seen)) as [Hin | Hnin].
    + destruct (IH seen) as [Hnd Hel]. split; [done |].
      intros x. rewrite Hel, elem_of_cons. split; [tauto |].
      intros [[-> | Hx] Hs]; [done | tauto].
    + destruct (IH (a :: seen)) as [Hnd Hel]. split.
      * apply NoDup_cons. split; [| done].
        rewrite Hel. intros [_ H]. apply H. by left.
      * intros x. rewrite !elem_of_cons, Hel, elem_of_cons.
        split.
        -- intros [-> | [Hx Hs]]; [tauto |]. split; [tauto |]. tauto.
        -- intros [[-> | Hx] Hs]; [by left |].
           destruct (decide (x = a)) as [-> | Hne]; [by left |].
           right. split; [done |]. tauto.
Qed.

Lemma length_unique_from {A} `{EqDecision A} (seen l : list A) :
  (length (unique_from seen l) <= length l)%nat.
Proof.
  revert seen; induction l as [| a l IH]; intros seen; simpl; [lia |].
  destruct (decide (a ∈ seen)).
  - specialize (IH seen). lia.
  - specialize (IH (a :: seen)). simpl. lia.
Qed.

Lemma elem_of_unique s c : c ∈ unique s <-> c ∈ s.
Proof.
  unfold unique. destruct (unique_from_spec [] s) as [_ H].
  rewrite H. rewrite elem_of_nil. tauto.
Qed.

Lemma NoDup_unique s : NoDup (unique s).
Proof. apply unique_from_spec. Qed.

Lemma len_unique_le s : len (unique s) <= len s.
Proof.
  unfold len, unique. pose proof (length_unique_from [] s). lia.
Qed.

Lemma len_unique_pos s : s <> [] -> 1 <= len (unique s).
Proof.
  destruct s as [| c s]; [done |]. intros _.
  unfold unique, len. simpl.
  destruct (decide (c ∈ [])) as [H | _]; [by apply elem_of_nil in H |].
  simpl. lia.
Qed.

Lemma length_dropna_null_free (l : list (cell value)) :
  None ∉ l -> length (dropna l) = length l.
Proof.
  induction l as [| [v |] l IH]; intros Hnull; [done | |].
  - rewrite dropna_cons_Some. cbn [length]. rewrite IH; [done |].
    intros H. apply Hnull. by right.
  - exfalso. apply Hnull. by left.
Qed.

(** A list of cells without repetition holds the null at most once. *)
Lemma length_dropna_NoDup (l : list (cell value)) :
  NoDup l -> None ∈ l -> length l = S (length (dropna l)).
Proof.
  induction 1 as [| [v |] l Hc Hnd IH]; intros Hnull.
  - by apply elem_of_nil in Hnull.
  - apply elem_of_cons in Hnull as [[=] | Hnull].
    rewrite dropna_cons_Some. cbn [length]. by rewrite IH.
  - rewrite dropna_cons_None. cbn [length]. f_equal. symmetry.
    by apply length_dropna_null_free.
Qed.

(** The count [unique_ratio] divides is [nunique] plus one for the null. *)
Lemma len_unique_nunique s :
  len (unique s) = nunique s + (if decide (None ∈ s) then 1 else 0).
Proof.
  unfold nunique, len. case_decide as Hnull.
  - rewrite (length_dropna_NoDup (unique s) (NoDup_unique s)); [lia |].
    by apply elem_of_unique.
  - rewrite length_dropna_null_free; [lia |].
    by rewrite elem_of_unique.
Qed.

Lemma nunique_all_null s : Forall (fun c => c = None) s -> nunique s = 0.
Proof.
  intros Hall. unfold nunique.
  rewrite dropna_all_null; [done |].
  rewrite Forall_forall in Hall |- *.
  intros c Hc. rewrite elem_of_unique in Hc. by apply Hall.
Qed.

Lemma isna_sum_all_null s : Forall (fun c => c = None) s -> isna_sum s = len s.
Proof.
  intros Hall. unfold isna_sum, len.
  induction Hall as [| c s -> _ IH]; [done |].
  rewrite filter_cons_True by done. cbn [length]. lia.
Qed.

End SeriesFacts.

(** ** Floats: the quotient and its rounding *)

Lemma pow2_pos (e : Z) : 0 <= e -> 0 < 2 ^ e.
Proof. intros He. apply Z.pow_pos_nonneg; lia. Qed.

(** A power of two as a quotient of two integer powers. *)
Lemma pow2_quotient (m n : Z) :
  0 <= m -> 0 <= n -> (pow2 (m - n) == 2 ^ m # Z.to_pos (2 ^ n))%Q.
Proof.
  intros Hm Hn. unfold pow2.
  pose proof (pow2_pos n Hn) as Hpn.
  destruct (Z.leb_spec 0 (m - n)) as [H | H].
  - unfold Qeq, inject_Z. cbn [Qnum Qden]. rewrite Z2Pos.id by lia.
    rewrite Z.mul_1_r, <- Z.pow_add_r by lia. f_equal. lia.
  - pose proof (pow2_pos (- (m - n)) ltac:(lia)) as Hp.
    unfold Qeq. cbn [Qnum Qden]. rewrite !Z2Pos.id by lia.
    rewrite <- Z.pow_add_r by lia. rewrite Z.mul_1_l. f_equal. lia.
Qed.

(** [floor_log2] finds the leading bit. *)
Lemma floor_log2_spec (q : Q) :
  (0 < q)%Q ->
  (pow2 (floor_log2 q) <= q < pow2 (floor_log2 q + 1))%Q.
Proof.
  destruct q as [a b]. unfold Qlt at 1. cbn [Qnum Qden]. intros Ha.
  assert (Ha' : 0 < a) by lia. clear Ha.
  unfold floor_log2. cbn [Qnum Qden].
  pose proof (Z.log2_spec a Ha') as [Ha1 Ha2].
  pose proof (Z.log2_spec (Zpos b) ltac:(lia)) as [Hb1 Hb2].
  pose proof (Z.log2_nonneg a) as Hla.
  pose proof (Z.log2_nonneg (Zpos b)) as Hlb.
  set (la := Z.log2 a) in *. set (lb := Z.log2 (Zpos b)) in *.
  pose proof (pow2_pos la Hla) as Hpa.
  pose proof (pow2_pos lb Hlb) as Hpb.
  rewrite Z.pow_succ_r in Ha2, Hb2 by lia.
  assert (Hup : (a # b < pow2 (la - lb + 1))%Q).
  { replace (la - lb + 1) with ((la + 1) - lb) by lia.
    rewrite (pow2_quotient (la + 1) lb) by lia.
    unfold Qlt. cbn [Qnum Qden]. rewrite Z2Pos.id by lia.
    rewrite Z.pow_add_r by lia. change (2 ^ 1) with 2. nia. }
  assert (Hlo : (pow2 (la - lb - 1) <= a # b)%Q).
  { replace (la - lb - 1) with (la - (lb + 1)) by lia.
    rewrite (pow2_quotient la (lb + 1)) by lia.
    pose proof (pow2_pos (lb + 1) ltac:(lia)) as Hp1.
    unfold Qle. cbn [Qnum Qden]. rewrite Z2Pos.id by lia.
    rewrite Z.pow_add_r by lia. change (2 ^ 1) with 2. nia. }
  destruct (Qle_bool (pow2 (la - lb)) (a # b)) eqn:Hle.
  - apply Qle_bool_iff in Hle. split; [exact Hle | exact Hup].
  - split; [exact Hlo |].
    replace (la - lb - 1 + 1) with (la - lb) by lia.
    apply Qnot_le_lt. intros H. apply Qle_bool_iff in H. congruence.
Qed.

Lemma pow2_split (k : Z) :
  (pow2 k == 2 ^ Z.max k 0 # Z.to_pos (2 ^ Z.max (- k) 0))%Q.
Proof.
  rewrite <- pow2_quotient by lia.
  replace (Z.max k 0 - Z.max (- k) 0) with k by lia. reflexivity.
Qed.

Lemma pow2_add (j k : Z) : (pow2 j * pow2 k == pow2 (j + k))%Q.
Proof.
  rewrite (pow2_split j), (pow2_split k).
  replace (j + k)
    with ((Z.max j 0 + Z.max k 0) - (Z.max (- j) 0 + Z.max (- k) 0)) by lia.
  rewrite pow2_quotient by lia.
  pose proof (pow2_pos (Z.max (- j) 0) ltac:(lia)).
  pose proof (pow2_pos (Z.max (- k) 0) ltac:(lia)).
  unfold Qeq, Qmult. cbn [Qnum Qden].
  rewrite Pos2Z.inj_mul, !Z2Pos.id by (try apply pow2_pos; lia).
  rewrite !Z.pow_add_r by lia. ring.
Qed.

Lemma pow2_positive (k : Z) : (0 < pow2 k)%Q.
Proof.
  unfold pow2. destruct (0 <=? k) eqn:E.
  - apply Z.leb_le in E. pose proof (pow2_pos k E).
    unfold Qlt, inject_Z. cbn [Qnum Qden]. lia.
  - reflexivity.
Qed.

(** *** Rounding to an integer *)

Lemma round_half_even_bounds (q : Q) :
  Qfloor q <= round_half_even q <= Qfloor q + 1.
Proof.
  unfold round_half_even.
  destruct (q - inject_Z (Qfloor q) ?= 1 # 2)%Q; [destruct (Z.even _) | |]; lia.
Qed.

Lemma round_half_even_ge (q : Q) (n : Z) :
  (inject_Z n <= q)%Q -> n <= round_half_even q.
Proof.
  intros Hq. pose proof (round_half_even_bounds q) as [Hlo _].
  apply Qfloor_resp_le in Hq. rewrite Qfloor_Z in Hq. lia.
Qed.

Lemma round_half_even_le (q : Q) (n : Z) :
  (q <= inject_Z n)%Q -> round_half_even q <= n.
Proof.
  intros Hq. unfold round_half_even.
  pose proof (Qfloor_le q) as Hfl.
  destruct (q - inject_Z (Qfloor q) ?= 1 # 2)%Q eqn:Hc.
  - apply Qeq_alt in Hc.
    assert (Hlt : (inject_Z (Qfloor q) < inject_Z n)%Q) by lra.
    rewrite <- Zlt_Qlt in Hlt. destruct (Z.even _); lia.
  - assert (Hle : (inject_Z (Qfloor q) <= inject_Z n)%Q) by lra.
    by rewrite <- Zle_Qle in Hle.
  - apply Qgt_alt in Hc.
    assert (Hlt : (inject_Z (Qfloor q) < inject_Z n)%Q) by lra.
    rewrite <- Zlt_Qlt in Hlt. lia.
Qed.

Lemma round_half_even_lt (q : Q) (n : Z) :
  (q + (1 # 2) < inject_Z n)%Q -> round_half_even q < n.
Proof.
  intros Hq. unfold round_half_even.
  pose proof (Qfloor_le q) as Hfl.
  destruct (q - inject_Z (Qfloor q) ?= 1 # 2)%Q eqn:Hc.
  - apply Qeq_alt in Hc.
    assert (Hlt : (inject_Z (Qfloor q + 1) < inject_Z n)%Q).
    { rewrite inject_Z_plus. change (inject_Z 1) with 1%Q. lra. }
    rewrite <- Zlt_Qlt in Hlt. destruct (Z.even _); lia.
  - assert (Hlt : (inject_Z (Qfloor q) < inject_Z n)%Q) by lra.
    by rewrite <- Zlt_Qlt in Hlt.
  - apply Qgt_alt in Hc.
    assert (Hlt : (inject_Z (Qfloor q + 1) < inject_Z n)%Q).
    { rewrite inject_Z_plus. change (inject_Z 1) with 1%Q. lra. }
    by rewrite <- Zlt_Qlt in Hlt.
Qed.

(** The rounded integer is within one half of the number. *)
Lemma round_half_even_near (q : Q) :
  (Qabs (q - inject_Z (round_half_even q)) <= 1 # 2)%Q.
Proof.
  unfold round_half_even.
  pose proof (Qfloor_le q) as Hlo. pose proof (Qlt_floor q) as Hhi.
  rewrite inject_Z_plus in Hhi. change (inject_Z 1) with 1%Q in Hhi.
  apply Qabs_Qle_condition.
  destruct (q - inject_Z (Qfloor q) ?= 1 # 2)%Q eqn:Hc.
  - apply Qeq_alt in Hc. destruct (Z.even _).
    + split; lra.
    + rewrite inject_Z_plus. change (inject_Z 1) with 1%Q. split; lra.
  - apply Qlt_alt in Hc. split; lra.
  - apply Qgt_alt in Hc.
    rewrite inject_Z_plus. change (inject_Z 1) with 1%Q. split; lra.
Qed.

(** [nearest_positive q] is an integer of at most 53 bits times a power
    of two, that integer is the nearest one to the scaled [q], and in
    the normal range it has exactly 53 bits unless rounding carried it
    to [2^53]. *)
Theorem nearest_positive_spec (q : Q) :
  (0 < q)%Q ->
  let e := Z.min (52 - floor_log2 q) 1074 in
  let m := round_half_even (q * pow2 e) in
  (nearest_positive q == inject_Z m * pow2 (- e))%Q /\
  (Qabs (q * pow2 e - inject_Z m) <= 1 # 2)%Q /\
  0 <= m <= 2 ^ 53 /\
  (- 1022 <= floor_log2 q -> 2 ^ 52 <= m).
Proof.
  intros Hq e m.
  destruct (floor_log2_spec q Hq) as [Hlo Hhi].
  pose proof (pow2_positive e) as Hpe.
  split; [unfold nearest_positive; apply Qred_correct |].
  split; [apply round_half_even_near |].
  assert (Hx0 : (inject_Z 0 <= q * pow2 e)%Q).
  { change (inject_Z 0) with 0%Q. apply Qmult_le_0_compat; lra. }
  assert (Hx53 : (q * pow2 e <= inject_Z (2 ^ 53))%Q).
  { apply Qle_trans with (y := (pow2 (floor_log2 q + 1) * pow2 e)%Q).
    - apply Qmult_le_compat_r; lra.
    - rewrite pow2_add. unfold pow2 at 1.
      destruct (Z.leb_spec 0 (floor_log2 q + 1 + e)) as [H | H].
      + rewrite <- Zle_Qle. apply Z.pow_le_mono_r; unfold e; lia.
      + pose proof (pow2_pos 53 ltac:(lia)) as H53.
        unfold Qle, inject_Z. cbn [Qnum Qden]. nia. }
  split.
  - split; [by apply round_half_even_ge | by apply round_half_even_le].
  - intros Hnormal. apply round_half_even_ge.
    assert (He : e = 52 - floor_log2 q) by (unfold e; lia).
    apply Qle_trans with (y := (pow2 (floor_log2 q) * pow2 e)%Q).
    + rewrite pow2_add. replace (floor_log2 q + e) with 52 by lia.
      apply Qle_refl.
    + apply Qmult_le_compat_r; lra.
Qed.

(** *** The quotient of two lengths *)

Lemma floor_log2_ratio (a b : Z) :
  0 < a <= b ->
  floor_log2 (a # Z.to_pos b) <= 0 /\
  (2 * a < b -> floor_log2 (a # Z.to_pos b) <= -2).
Proof.
  intros [Ha Hab]. unfold floor_log2. cbn [Qnum Qden].
  rewrite Z2Pos.id by lia.
  pose proof (Z.log2_le_mono a b Hab) as Hmono.
  set (d := Z.log2 a - Z.log2 b).
  assert (Hd : d <= 0) by (unfold d; lia).
  split.
  - destruct (Qle_bool (pow2 d) (a # Z.to_pos b)); lia.
  - intros Hhalf.
    assert (Hd1 : d <= -1).
    { pose proof (Z.log2_le_mono (2 * a) b ltac:(lia)) as Hm.
      rewrite Z.log2_double in Hm by lia. unfold d. lia. }
    destruct (Qle_bool (pow2 d) (a # Z.to_pos b)) eqn:Hle; [| lia].
    destruct (Z.eq_dec d (-1)) as [E | NE]; [| lia].
    exfalso. rewrite E in Hle. apply Qle_bool_iff in Hle.
    unfold Qle in Hle. cbn in Hle. rewrite Z2Pos.id in Hle by lia. lia.
Qed.

Lemma nearest_positive_ratio (a b : Z) :
  0 < a <= b ->
  exists e,
    52 <= e /\
    (2 * a < b -> 54 <= e) /\
    (nearest_positive (a # Z.to_pos b)
     == round_half_even ((a # Z.to_pos b) * inject_Z (2 ^ e))
        # Z.to_pos (2 ^ e))%Q.
Proof.
  intros Hab. destruct (floor_log2_ratio a b Hab) as [Hl Hl2].
  unfold nearest_positive.
  set (e := Z.min (52 - floor_log2 (a # Z.to_pos b)) 1074).
  assert (He : 52 <= e) by (unfold e; lia).
  exists e. split; [exact He |]. split.
  { intros Hhalf. specialize (Hl2 Hhalf). unfold e. lia. }
  rewrite Qred_correct. unfold pow2.
  destruct (Z.leb_spec 0 e) as [_ | Hneg]; [| lia].
  destruct (Z.leb_spec 0 (- e)) as [Hpos | _]; [lia |].
  rewrite Z.opp_involutive.
  unfold Qeq, Qmult, inject_Z. cbn [Qnum Qden]. lia.
Qed.

(** The float quotient of two lengths stays in the unit interval. *)
Lemma binary64_ratio_bounds (a b : Z) :
  0 <= a <= b -> 0 < b -> (0 <= binary64 (a # Z.to_pos b) <= 1)%Q.
Proof.
  intros [Ha Hab] Hb. unfold binary64. cbn [Qnum].
  destruct a as [| p | p]; [split; discriminate | | lia].
  destruct (nearest_positive_ratio (Zpos p) b ltac:(lia)) as (e & He & _ & ->).
  pose proof (pow2_pos e ltac:(lia)) as HE.
  set (x := ((Zpos p # Z.to_pos b) * inject_Z (2 ^ e))%Q).
  assert (Hx0 : (inject_Z 0 <= x)%Q).
  { unfold x, Qle, Qmult, inject_Z. cbn [Qnum Qden]. lia. }
  assert (Hx1 : (x <= inject_Z (2 ^ e))%Q).
  { unfold x, Qle, Qmult, inject_Z. cbn [Qnum Qden].
    rewrite Pos.mul_1_r, Z2Pos.id by lia. nia. }
  apply round_half_even_ge in Hx0. apply round_half_even_le in Hx1.
  unfold Qle. cbn [Qnum Qden]. rewrite Z2Pos.id by lia. lia.
Qed.

(** Below 2^54 cells the float quotient is under one half exactly when
    the exact one is. *)
Lemma binary64_ratio_lt_half (a b : Z) :
  0 <= a <= b -> 0 < b -> b < 2 ^ 54 ->
  (binary64 (a # Z.to_pos b) < 1 # 2)%Q <-> 2 * a < b.
Proof.
  intros [Ha Hab] Hb Hsmall. unfold binary64. cbn [Qnum].
  destruct a as [| p | p]; [split; [lia | reflexivity] | | lia].
  destruct (nearest_positive_ratio (Zpos p) b ltac:(lia))
    as (e & He & He54 & ->).
  pose proof (pow2_pos e ltac:(lia)) as HE.
  pose proof (pow2_pos (e - 1) ltac:(lia)) as HE1.
  assert (Hdouble : 2 ^ e = 2 * 2 ^ (e - 1)).
  { rewrite <- Z.pow_succ_r by lia. f_equal. lia. }
  set (x := ((Zpos p # Z.to_pos b) * inject_Z (2 ^ e))%Q).
  assert (Hm : round_half_even x < 2 ^ (e - 1) <-> 2 * Zpos p < b).
  { split.
    - intros Hlt.
      destruct (Z.lt_ge_cases (2 * Zpos p) b) as [H | H]; [exact H |].
      exfalso.
      assert (Hx : (inject_Z (2 ^ (e - 1)) <= x)%Q).
      { unfold x, Qle, Qmult, inject_Z. cbn [Qnum Qden].
        rewrite Pos.mul_1_r, Z2Pos.id by lia. nia. }
      apply round_half_even_ge in Hx. lia.
    - intros Hhalf. specialize (He54 Hhalf).
      apply round_half_even_lt.
      assert (Hbig : 2 ^ 54 <= 2 ^ e) by (apply Z.pow_le_mono_r; lia).
      unfold x, Qlt, Qplus, Qmult, inject_Z. cbn [Qnum Qden].
      rewrite !Pos.mul_1_r, Pos2Z.inj_mul, Z2Pos.id by lia. nia. }
  unfold Qlt. cbn [Qnum Qden]. rewrite Z2Pos.id by lia.
  rewrite <- Hm. lia.
Qed.

Lemma round2_unit_interval (q : Q) :
  (0 <= q <= 1)%Q -> (0 <= round2 q <= 1)%Q.
Proof.
  intros [Hlo Hhi]. unfold round2.
  assert (H0 : (inject_Z 0 <= q * 100)%Q) by (change (inject_Z 0) with 0%Q; lra).
  assert (H100 : (q * 100 <= inject_Z 100)%Q)
    by (change (inject_Z 100) with 100%Q; lra).
  apply round_half_even_ge in H0. apply round_half_even_le in H100.
  rewrite Qred_correct. unfold Qle; cbn [Qnum Qden]. lia.
Qed.

Lemma true_div_ratio (a b : Z) :
  0 <= a <= b -> 0 < b -> true_div a b = Return (binary64 (a # Z.to_pos b)).
Proof.
  intros Ha Hb. unfold true_div.
  destruct (Z.eqb_spec b 0) as [E | _]; [lia |].
  destruct (Z.ltb_spec 0 b) as [_ | H]; [| lia].
  pose proof (binary64_ratio_bounds a b Ha Hb) as [Hlo Hhi].
  assert (Hbig : (1 < pow2 1024)%Q) by reflexivity.
  cbv zeta.
  destruct (Qle_bool (pow2 1024) _) eqn:H1.
  { apply Qle_bool_iff in H1. lra. }
  destruct (Qle_bool _ (- pow2 1024)) eqn:H2.
  { apply Qle_bool_iff in H2. lra. }
  reflexivity.
Qed.

Example binary64_tenth :
  binary64 (1 # 10) = (3602879701896397 # 36028797018963968)%Q.
Proof. vm_compute. reflexivity. Qed.

Example binary64_third :
  binary64 (1 # 3) = (6004799503160661 # 18014398509481984)%Q.
Proof. vm_compute. reflexivity. Qed.

Example binary64_big_odd : binary64 (9007199254740993 # 1) = 9007199254740992%Q.
Proof. vm_compute. reflexivity. Qed.

(** [round(0.125, 2)] is a tie and goes to the even 0.12 (3/25); 2.675
    and 0.005 are not floats, the floats nearest to them lie below and
    above. *)
Example round2_samples :
  map (fun q => round2 (binary64 q))
      [1 # 8; 3 # 8; 2675 # 1000; 5 # 1000; 15 # 1000; 2 # 3]%Q
  = [3 # 25; 19 # 50; 267 # 100; 1 # 100; 1 # 100; 67 # 100]%Q.
Proof. vm_compute. reflexivity. Qed.

(** ** Selecting a column and filling the dict *)

Section FrameFacts.
Context {value : Type} `{!Pandas value}.
Implicit Types (s : Series value) (df : DataFrame value).

Lemma positions_from_absent (k : nat) (labels : list string) (c : string) :
  c ∉ labels -> positions_from k labels c = [].
Proof.
  revert k; induction labels as [| l rest IH]; intros k Hc; simpl; [done |].
  destruct (decide (l = c)) as [-> | _].
  - exfalso. apply Hc. by left.
  - apply IH. intros H. apply Hc. by right.
Qed.

Lemma positions_from_NoDup (k i : nat) (labels : list string) (c : string) :
  NoDup labels -> labels !! i = Some c ->
  positions_from k labels c = [(k + i)%nat].
Proof.
  intros Hnd; revert k i.
  induction Hnd as [| l rest Hl Hnd IH]; intros k i Hi; [done |].
  simpl. destruct i as [| i]; simpl in Hi.
  - injection Hi as ->. rewrite decide_True by done.
    rewrite positions_from_absent by done. f_equal. lia.
  - destruct (decide (l = c)) as [-> | _].
    + exfalso. apply Hl. by eapply list_elem_of_lookup_2.
    + rewrite (IH (S k) i Hi). f_equal. lia.
Qed.

(** With distinct labels, [df[column]] is the Series at the label's
    position. *)
Lemma getitem_NoDup df (i : nat) (column : string) :
  NoDup (columns df) -> columns df !! i = Some column ->
  getitem df column = OneSeries (iloc_column df i).
Proof.
  intros Hnd Hi. unfold getitem.
  by rewrite (positions_from_NoDup 0 i _ _ Hnd Hi).
Qed.

Lemma dict_set_fresh {V} (d : list (string * V)) (k : string) (v : V) :
  k ∉ d.*1 -> dict_set d k v = (d ++ [(k, v)])%list.
Proof.
  induction d as [| [k' v'] d IH]; intros Hk; simpl; [done |].
  destruct (decide (k' = k)) as [-> | _].
  - exfalso. apply Hk. by left.
  - rewrite IH; [done |]. intros H. apply Hk. by right.
Qed.

Lemma foldl_dict_set_fresh {V} (f : string -> V) (acc : list (string * V))
    (labels : list string) :
  NoDup (acc.*1 ++ labels)%list ->
  foldl (fun d c => dict_set d c (f c)) acc labels
  = (acc ++ map (fun c => (c, f c)) labels)%list.
Proof.
  revert acc; induction labels as [| l rest IH]; intros acc Hnd; simpl.
  - by rewrite app_nil_r.
  - apply NoDup_app in Hnd as (Hacc & Hdisj & Hlab).
    apply NoDup_cons in Hlab as [Hl Hrest].
    rewrite dict_set_fresh.
    2:{ intros H. apply (Hdisj l H). by left. }
    rewrite IH.
    + by rewrite <- app_assoc.
    + rewrite fmap_app. simpl. rewrite <- app_assoc. simpl.
      apply NoDup_app. split; [done |]. split.
      * intros x Hx [-> | Hin]%elem_of_cons; [| by apply (Hdisj x Hx); right].
        apply (Hdisj l Hx). by left.
      * by apply NoDup_cons.
Qed.

(** With distinct labels the loop appends one entry per column, in the
    order of [df.columns]. *)
Lemma infer_loop_NoDup df :
  NoDup (columns df) ->
  infer_loop df = map (fun c => (c, classify_column df c)) (columns df).
Proof.
  intros Hnd. unfold infer_loop.
  by rewrite (foldl_dict_set_fresh (classify_column df) []).
Qed.

Lemma validate_dataframe_accepted df :
  validate_dataframe df = accepted ->
  NoDup (columns df) /\ 0 < len (rows df) <= MAX_ROWS /\
  0 < len (columns df) <= MAX_COLUMNS.
Proof.
  intros Hv.
  destruct (validate_dataframe_cases df)
    as [[E H] | [[E H] | [[E H] | [[E H] | [E H]]]]];
    rewrite Hv in E; try discriminate E.
  tauto.
Qed.

End FrameFacts.

(** ** The column classifier *)

Section Classifier.
Context {value : Type} `{!Pandas value}.
Implicit Types (s : Series value) (df : DataFrame value).
Implicit Types (sample : list value) (info : column_info value).

Lemma nonnull_len_pos s (v : value) : v ∈ dropna s -> 0 < len s.
Proof.
  rewrite elem_of_dropna. destruct s; [by intros ?%elem_of_nil |].
  intros _. unfold len. simpl. lia.
Qed.

(** The numeric branch, when it returns, says [integer] or [float]. *)
Lemma numeric_inference_Return sample s info :
  numeric_inference sample s = Return info ->
  exists b : bool,
    all_is_integer (dropna s) = Return b /\
    info = typed (if b then integer else float) sample s None.
Proof.
  unfold numeric_inference.
  intros ([] & _ & (b & Hb & [= <-])%bind_Return)%bind_Return.
  by exists b.
Qed.

(** It can only raise on a column that has a non-null cell. *)
Lemma numeric_inference_Raise sample s e :
  numeric_inference sample s = Raise e -> 0 < len s.
Proof.
  unfold numeric_inference. rewrite bind_Raise.
  intros [Hn | ([] & _ & Hi)].
  - destruct (to_numeric_Raise _ _ Hn) as (v & Hv & _).
    by eapply nonnull_len_pos.
  - apply bind_Raise in Hi as [Hi | (b & _ & [=])].
    destruct (all_is_integer_Raise _ _ Hi) as (v & Hv & _).
    by eapply nonnull_len_pos.
Qed.

Lemma datetime_inference_Return sample s info :
  datetime_inference sample s = Return info ->
  info = typed datetime sample s None.
Proof.
  unfold datetime_inference. by intros ([] & _ & [= <-])%bind_Return.
Qed.

(** On a column with at least one cell the fallback divides and
    returns. *)
Lemma categorical_inference_Return sample s :
  0 < len s ->
  let ratio := binary64 (len (unique s) # Z.to_pos (len s)) in
  categorical_inference sample s
  = Return (typed (if Qlt_le_dec ratio (1 # 2) then category else text)
              sample s (Some (round2 ratio))).
Proof.
  intros Hlen ratio. unfold categorical_inference.
  rewrite true_div_ratio;
    [| split; [apply len_nonneg | apply len_unique_le] | exact Hlen].
  simpl. fold ratio.
  by destruct (Qlt_le_dec ratio (1 # 2)).
Qed.

Lemma unique_ratio_bounds s :
  0 < len s -> (0 <= binary64 (len (unique s) # Z.to_pos (len s)) <= 1)%Q.
Proof.
  intros Hlen. apply binary64_ratio_bounds; [| done].
  split; [apply len_nonneg | apply len_unique_le].
Qed.

(** What [infer_series] does, branch by branch. *)
Lemma infer_series_cases s :
  let sample := take SAMPLE_SIZE (dropna s) in
  (exists info, numeric_inference sample s = Return info /\
                infer_series s = Return info) \/
  (exists e, numeric_inference sample s = Raise e /\
             is_value_or_type_error e = false /\ infer_series s = Raise e) \/
  (falls_through (numeric_inference sample s) /\
   exists info, datetime_inference sample s = Return info /\
                infer_series s = Return info) \/
  (falls_through (numeric_inference sample s) /\
   exists e, datetime_inference sample s = Raise e /\
             is_value_or_type_error e = false /\ infer_series s = Raise e) \/
  (falls_through (numeric_inference sample s) /\
   falls_through (datetime_inference sample s) /\
   0 < len s /\
   infer_series s = categorical_inference sample s).
Proof.
  intros sample. unfold infer_series, try_except_value_type. fold sample.
  destruct (numeric_inference sample s) as [info | e] eqn:Hn.
  { left. by exists info. }
  pose proof (numeric_inference_Raise _ _ _ Hn) as Hlen.
  destruct (is_value_or_type_error e) eqn:He.
  2:{ right; left. by exists e. }
  assert (Hft : falls_through (Raise (A := column_info value) e))
    by by exists e.
  destruct (datetime_inference sample s) as [info | e'] eqn:Hd.
  { right; right; left. split; [done |]. by exists info. }
  destruct (is_value_or_type_error e') eqn:He'.
  - right; right; right; right. repeat split; try done. by exists e'.
  - right; right; right; left. split; [done |]. by exists e'.
Qed.

End Classifier.

(** ** The claims about the classifier *)



Section ClassifierClaims.
Context {value : Type} `{!Pandas value}.
Implicit Types (s : Series value) (df : DataFrame value).
Implicit Types (sample : list value) (info : column_info value).

(** C3 (as amended).  A column that reaches the categorical/text
    fallback (the numeric and the datetime attempts both raised a
    [ValueError] or [TypeError]) is always classified: [unique_ratio] is
    the number of distinct values of the column, the null counting as
    one value when the column has one, divided by the number of cells;
    the column is [category] when that ratio is below 0.5 and [text]
    otherwise.  The ratio is a float; below [2^54] cells it is under
    0.5 exactly when the exact quotient is. *)
Theorem fallback_classifies_by_distinct_values s :
  let sample := take SAMPLE_SIZE (dropna s) in
  let distinct := len (unique s) in
  let ratio := binary64 (distinct # Z.to_pos (len s)) in
  falls_through (numeric_inference sample s) ->
  falls_through (datetime_inference sample s) ->
  exists info,
    infer_series s = Return info /\
    categorical_inference sample s = Return info /\
    distinct = nunique s + (if decide (None ∈ s) then 1 else 0) /\
    unique_ratio info = Some (round2 ratio) /\
    ((ratio < 1 # 2)%Q -> type info = category) /\
    ((1 # 2 <= ratio)%Q -> type info = text) /\
    (type info = category \/ type info = text) /\
    (len s < 2 ^ 54 -> (ratio < 1 # 2)%Q <-> 2 * distinct < len s).
Proof.
  intros sample distinct ratio (e1 & Hn & He1) (e2 & Hd & He2).
  pose proof (numeric_inference_Raise _ _ _ Hn) as Hlen.
  pose proof (categorical_inference_Return sample s Hlen) as Hc.
  cbv zeta in Hc. fold distinct ratio in Hc.
  eexists. split; [| split; [exact Hc |]].
  { unfold infer_series, try_except_value_type. fold sample.
    rewrite Hn, He1, Hd, He2. exact Hc. }
  split; [apply len_unique_nunique |].
  split; [reflexivity |].
  assert (Hexact : len s < 2 ^ 54 ->
                   (ratio < 1 # 2)%Q <-> 2 * distinct < len s).
  { intros Hsmall. apply binary64_ratio_lt_half; [| done | done].
    split; [apply len_nonneg | apply len_unique_le]. }
  simpl.
  destruct (Qlt_le_dec ratio (1 # 2)) as [Hlt | Hge];
    (split; [| split; [| split; [| exact Hexact]]]).
  - reflexivity.
  - intros Hge. exfalso. by apply (Qlt_not_le _ _ Hlt).
  - by left.
  - intros Hlt. exfalso. by apply (Qlt_not_le _ _ Hlt).
  - reflexivity.
  - by right.
Qed.

(** C2 (as amended).  For a column classified [category] or [text] the
    reported [unique_ratio] is the number of distinct values of the
    column, the null counting as one value when the column has one,
    divided by the number of cells (a float) and rounded to two
    decimals; it lies in [[0, 1]].  [unique_count] counts the distinct non-null values, so
    the ratio is [unique_count] over the row count when the column has
    no null, and [unique_count + 1] over the row count when it has. *)
Theorem unique_ratio_counts_distinct_values s info :
  let ratio := binary64 (len (unique s) # Z.to_pos (len s)) in
  infer_series s = Return info ->
  type info = category \/ type info = text ->
  unique_ratio info = Some (round2 ratio) /\
  (0 <= round2 ratio <= 1)%Q /\
  unique_count info = Some (nunique s) /\
  len (unique s) = nunique s + (if decide (None ∈ s) then 1 else 0) /\
  (None ∉ s ->
   unique_ratio info
   = Some (round2 (binary64 (nunique s # Z.to_pos (len s))))).
Proof.
  intros ratio Hinfo Hkind.
  assert (Hcat : 0 < len s /\
                 categorical_inference (take SAMPLE_SIZE (dropna s)) s
                 = Return info).
  { destruct (infer_series_cases s)
      as [(i & Hn & Hi) | [(e & _ & _ & Hi) |
          [(_ & i & Hd & Hi) | [(_ & e & _ & _ & Hi) |
           (_ & _ & Hlen & Hi)]]]];
      rewrite Hi in Hinfo; try discriminate Hinfo.
    - injection Hinfo as ->.
      apply numeric_inference_Return in Hn as ([] & _ & ->);
        destruct Hkind as [K | K]; discriminate K.
    - injection Hinfo as ->.
      apply datetime_inference_Return in Hd as ->.
      destruct Hkind as [K | K]; discriminate K.
    - by split. }
  destruct Hcat as [Hlen Hcat].
  rewrite (categorical_inference_Return _ s Hlen) in Hcat.
  cbv zeta in Hcat. fold ratio in Hcat. injection Hcat as <-.
  pose proof (len_unique_nunique s) as Hcount.
  split; [reflexivity |].
  split; [apply round2_unit_interval, unique_ratio_bounds, Hlen |].
  split; [reflexivity |]. split; [exact Hcount |].
  intros Hnull. simpl. unfold ratio. rewrite Hcount.
  rewrite decide_False by exact Hnull. by rewrite Z.add_0_r.
Qed.



End ClassifierClaims.

(** C6 (as amended).  The datetime attempt comes second.  After the
    numeric attempt fell through, a column that [pd.to_datetime]
    accepts, in its one call on the whole column, is [datetime] (so
    never [text], although its cells are stored as text); when the
    numeric attempt returned, the outcome is the same whatever the
    datetime parser is, so that parser is not consulted; and a datetime
    parse failure (a [ValueError] or [TypeError]) hands the column to
    the categorical/text fallback, which classifies it. *)
Theorem datetime_branch_follows_numeric
    {value : Type} (P : Pandas value) (s : Series value) :
  let sample := take SAMPLE_SIZE (dropna s) in
  (falls_through (numeric_inference sample s) ->
   to_datetime s = Return () ->
   exists info,
     infer_series s = Return info /\ info = typed datetime sample s None /\
     type info = datetime /\ type info <> text) /\
  (forall info,
     numeric_inference sample s = Return info ->
     forall parser,
       infer_series (Pandas0 := with_to_datetime P parser) s = Return info) /\
  (falls_through (numeric_inference sample s) ->
   falls_through (to_datetime s) ->
   infer_series s = categorical_inference sample s /\
   exists info,
     infer_series s = Return info /\
     (type info = category \/ type info = text)).
Proof.
  intros sample. split; [| split].
  - intros (e & Hn & He) Hd. eexists. split; [| by repeat split].
    unfold infer_series, try_except_value_type. fold sample.
    rewrite Hn, He. unfold datetime_inference. by rewrite Hd.
  - intros info Hn parser.
    unfold infer_series, try_except_value_type.
    change (numeric_inference (Pandas0 := with_to_datetime P parser)
              (take SAMPLE_SIZE (dropna s)) s)
      with (numeric_inference sample s).
    by rewrite Hn.
  - intros (e & Hn & He) (e' & Hd & He').
    pose proof (numeric_inference_Raise _ _ _ Hn) as Hlen.
    assert (Heq : infer_series s = categorical_inference sample s).
    { unfold infer_series, try_except_value_type. fold sample.
      rewrite Hn, He. unfold datetime_inference. rewrite Hd. simpl.
      by rewrite He'. }
    split; [exact Heq |].
    rewrite Heq, (categorical_inference_Return sample s Hlen).
    eexists. split; [reflexivity |]. simpl.
    destruct (Qlt_le_dec _ _); auto.
Qed.

(** ** The claims about whole tables *)

Section TableClaims.
Context {value : Type} `{!Pandas value}.
Implicit Types (s : Series value) (df : DataFrame value).

Lemma map_fmap {A B} (f : A -> B) (l : list A) : map f l = f <$> l.
Proof. induction l as [| x l IH]; [done |]. simpl. by rewrite IH. Qed.

Lemma fst_map_pair {A B} (f : A -> B) (l : list A) :
  (map (fun c => (c, f c)) l).*1 = l.
Proof. induction l as [| x l IH]; [done |]. simpl. f_equal. exact IH. Qed.

Lemma infer_and_convert_types_Return df :
  infer_and_convert_types df = Return (infer_loop df).
Proof. reflexivity. Qed.

Lemma classify_column_NoDup df (i : nat) (column : string) :
  NoDup (columns df) -> columns df !! i = Some column ->
  classify_column df column
  = try_except (infer_series (iloc_column df i)) error_info.
Proof.
  intros Hnd Hi. unfold classify_column.
  by rewrite (getitem_NoDup df i column Hnd Hi).
Qed.

Lemma infer_loop_lookup df (i : nat) (column : string) :
  NoDup (columns df) -> columns df !! i = Some column ->
  infer_loop df !! i = Some (column, classify_column df column).
Proof.
  intros Hnd Hi. rewrite (infer_loop_NoDup df Hnd).
  rewrite map_fmap.
  by rewrite list_lookup_fmap, Hi.
Qed.

Lemma infer_series_all_null s :
  Forall (fun c => c = None) s ->
  infer_series s = Return (typed integer [] s None).
Proof.
  intros Hnull. unfold infer_series, numeric_inference.
  rewrite (dropna_all_null s Hnull).
  rewrite (proj2 (to_numeric_Return s)).
  - reflexivity.
  - rewrite (dropna_all_null s Hnull). constructor.
Qed.

(** C1 (as amended).  In a table that passed validation, a column whose
    cells are all null is classified [integer]: the numeric attempt
    succeeds on it, no cell being there to fail the parse or to have a
    fractional part.  Its [null_count] is the table's row count, its
    [unique_count] is 0, it has no sample value and no [unique_ratio],
    so no division takes place. *)
Theorem all_null_column_is_integer df (i : nat) (column : string) :
  let info := classify_column df column in
  validate_dataframe df = accepted ->
  columns df !! i = Some column ->
  Forall (fun c => c = None) (iloc_column df i) ->
  type info = integer /\
  sample_values info = Some [] /\
  null_count info = Some (len (rows df)) /\
  unique_count info = Some 0 /\
  unique_ratio info = None /\
  error_text info = None /\
  exists type_info,
    infer_and_convert_types df = Return type_info /\
    type_info !! i = Some (column, info).
Proof.
  intros info Hv Hi Hnull.
  apply validate_dataframe_accepted in Hv as (Hnd & _ & _).
  assert (Hinfo : info = typed integer [] (iloc_column df i) None).
  { unfold info. rewrite (classify_column_NoDup df i column Hnd Hi).
    by rewrite (infer_series_all_null _ Hnull). }
  rewrite Hinfo. simpl.
  rewrite (isna_sum_all_null _ Hnull), len_iloc_column.
  rewrite (nunique_all_null _ Hnull).
  repeat split; try reflexivity.
  exists (infer_loop df). split; [reflexivity |].
  rewrite (infer_loop_lookup df i column Hnd Hi). fold info.
  by rewrite Hinfo.
Qed.

(** C10.  In a table that passed validation every column is a Series
    as long as the table, which has at least one row: the denominator
    of the division in the categorical/text fallback is that length and
    is not zero, the division returns the quotient, and the fallback
    returns a result on every column. *)
Theorem fallback_division_never_by_zero df (i : nat) (column : string) :
  let s := iloc_column df i in
  validate_dataframe df = accepted ->
  columns df !! i = Some column ->
  getitem df column = OneSeries s /\
  len s = len (rows df) /\
  0 < len s /\
  true_div (len (unique s)) (len s)
  = Return (binary64 (len (unique s) # Z.to_pos (len s))) /\
  exists info,
    categorical_inference (take SAMPLE_SIZE (dropna s)) s = Return info /\
    (type info = category \/ type info = text).
Proof.
  intros s Hv Hi.
  apply validate_dataframe_accepted in Hv as (Hnd & [Hrows _] & _).
  assert (Hlen : 0 < len s) by (unfold s; by rewrite len_iloc_column).
  split; [by apply getitem_NoDup |].
  split; [apply len_iloc_column |].
  split; [exact Hlen |].
  split.
  { apply true_div_ratio; [| exact Hlen].
    split; [apply len_nonneg | apply len_unique_le]. }
  rewrite (categorical_inference_Return _ s Hlen).
  eexists. split; [reflexivity |]. simpl.
  destruct (Qlt_le_dec _ _); auto.
Qed.

(** C4.  On a table that passed validation, inference returns a dict
    with exactly one entry per column, in the order of the table's
    columns.  The entry of a column is the result of classifying that
    column alone; when classifying it raises, the entry is an [error]
    entry that carries the exception's text and no other key, and the
    entries of the other columns are what they would be anyway. *)
Theorem infer_one_entry_per_column df :
  validate_dataframe df = accepted ->
  exists type_info,
    infer_and_convert_types df = Return type_info /\
    type_info.*1 = columns df /\
    (forall (i : nat) (column : string),
       columns df !! i = Some column ->
       type_info !! i
       = Some (column,
               try_except (infer_series (iloc_column df i)) error_info)) /\
    (forall (i : nat) (column : string) (e : exception),
       columns df !! i = Some column ->
       infer_series (iloc_column df i) = Raise e ->
       type_info !! i
       = Some (column,
               {| type := error; sample_values := None;
                  original_type := None; null_count := None;
                  unique_count := None; unique_ratio := None;
                  error_text := Some (exc_str e) |})).
Proof.
  intros Hv.
  apply validate_dataframe_accepted in Hv as (Hnd & _ & _).
  exists (infer_loop df). split; [reflexivity |].
  assert (Hentry : forall (i : nat) (column : string),
             columns df !! i = Some column ->
             infer_loop df !! i
             = Some (column,
                     try_except (infer_series (iloc_column df i)) error_info)).
  { intros i column Hi.
    rewrite (infer_loop_lookup df i column Hnd Hi).
    by rewrite (classify_column_NoDup df i column Hnd Hi). }
  split; [| split; [exact Hentry |]].
  - rewrite (infer_loop_NoDup df Hnd). apply fst_map_pair.
  - intros i column e Hi Hraise.
    rewrite (Hentry i column Hi), Hraise. reflexivity.
Qed.

End TableClaims.

(** ** [process_file] *)

Lemma validate_file_passed (file : file_obj) :
  validate_file file = (true, None) -> truthy file = true.
Proof.
  unfold validate_file. by destruct (truthy file).
Qed.

(** C8.  A table with more columns than [MAX_COLUMNS] or more rows than
    [MAX_ROWS] is turned away by [validate_dataframe]: the response is
    a bad request carrying the validator's message, and it is the same
    whatever the inference method is or would do, so inference is not
    run on such a table; this holds in particular for the view's own
    [infer_and_convert_types], whatever the parsing primitives are. *)
Theorem oversized_table_rejected_before_inference
    {value : Type} (engine : DataFrame value -> result (type_info_dict value))
    (file : file_obj) (read_csv : string -> result (DataFrame value))
    (df : DataFrame value) :
  validate_file file = (true, None) ->
  read_with_encodings read_csv ENCODINGS = Return (Some df) ->
  MAX_COLUMNS < len (columns df) \/ MAX_ROWS < len (rows df) ->
  exists reason,
    validate_dataframe df = (false, Some reason) /\
    reason ∈ ["The file is empty"; too_many_columns_message;
              too_many_rows_message] /\
    process_file_with engine (Return file) read_csv
    = Failure HTTP_400_BAD_REQUEST (Some reason) /\
    forall P : Pandas value,
      process_file (Return file) read_csv
      = Failure HTTP_400_BAD_REQUEST (Some reason).
Proof.
  intros Hfile Hread Hbig.
  assert (Hrej : exists reason,
             validate_dataframe df = (false, Some reason) /\
             reason ∈ ["The file is empty"; too_many_columns_message;
                       too_many_rows_message]).
  { destruct (validate_dataframe_cases df)
      as [[E H] | [[E H] | [[E H] | [[E H] | [E H]]]]];
      rewrite E; try (exfalso; unfold MAX_COLUMNS, MAX_ROWS in *; lia).
    - eexists. split; [reflexivity |]. by left.
    - eexists. split; [reflexivity |]. right; by left.
    - eexists. split; [reflexivity |]. right; right; by left. }
  destruct Hrej as (reason & Hrej & Hin).
  exists reason. split; [exact Hrej |]. split; [exact Hin |].
  assert (Hany : forall engine',
             process_file_with engine' (Return file) read_csv
             = Failure HTTP_400_BAD_REQUEST (Some reason)).
  { intros engine'. unfold process_file_with. simpl.
    rewrite (validate_file_passed file Hfile), Hfile. simpl.
    unfold load_and_analyse. rewrite Hread. simpl.
    by rewrite Hrej. }
  split; [apply Hany |]. intros P. apply Hany.
Qed.

(** ** The claims at concrete tables *)

Import Text.

Lemma falls_through_Raise {A} (e : exception) :
  is_value_or_type_error e = true -> falls_through (Raise (A := A) e).
Proof. intros He. by exists e. Qed.

(** C1: the claim, as the spec states it, fails on a validated table
    whose only column is all null: the column is [integer], not
    [category], and carries no [unique_ratio]. *)
Lemma all_null_column_counterexample :
  validate_dataframe all_null = accepted /\
  iloc_column all_null 0 = [None; None; None] /\
  (fun d => (d.*1, type <$> d.*2)) <$> infer_and_convert_types all_null
  = Return (["x"], [integer]) /\
  type (classify_column all_null "x") <> category /\
  unique_ratio (classify_column all_null "x") = None.
Proof. vm_compute. repeat split; congruence. Qed.

Lemma all_null_column_is_integer_witness :
  validate_dataframe all_null = accepted /\
  columns all_null !! 0%nat = Some "x" /\
  Forall (fun c => c = None) (iloc_column all_null 0) /\
  type (classify_column all_null "x") = integer /\
  null_count (classify_column all_null "x") = Some (len (rows all_null)) /\
  unique_count (classify_column all_null "x") = Some 0.
Proof.
  assert (Hv : validate_dataframe all_null = accepted) by reflexivity.
  assert (Hi : columns all_null !! 0%nat = Some "x") by reflexivity.
  assert (Hn : Forall (fun c : option string => c = None)
                 (iloc_column all_null 0)) by (repeat constructor).
  destruct (all_null_column_is_integer all_null 0 "x" Hv Hi Hn)
    as (Ht & _ & Hnull & Huniq & _).
  repeat split; assumption.
Defined.

(** C2: the claim, as the spec states it, fails on a column with nulls:
    six cells, two distinct non-null values and a null.  The entry
    reports [unique_count] 2 and [unique_ratio] 0.5 (three distinct
    values over six cells), not 2/6 rounded, which is 0.33. *)
Lemma unique_ratio_counterexample :
  infer_series sizes_with_gaps = Return sizes_info /\
  type sizes_info = text /\
  len sizes_with_gaps = 6 /\
  unique_count sizes_info = Some 2 /\
  unique_ratio sizes_info = Some (1 # 2)%Q /\
  round2 (binary64 (2 # 6)) = (33 # 100)%Q /\
  unique_ratio sizes_info <> Some (round2 (binary64 (2 # 6))).
Proof. vm_compute. repeat split; congruence. Qed.

Lemma unique_ratio_counts_distinct_values_witness :
  infer_series sizes_with_gaps = Return sizes_info /\
  (type sizes_info = category \/ type sizes_info = text) /\
  unique_ratio sizes_info
  = Some (round2 (binary64 (len (unique sizes_with_gaps)
                            # Z.to_pos (len sizes_with_gaps)))) /\
  len (unique sizes_with_gaps) = nunique sizes_with_gaps + 1.
Proof.
  assert (Hi : infer_series sizes_with_gaps = Return sizes_info)
    by (vm_compute; reflexivity).
  assert (Hk : type sizes_info = category \/ type sizes_info = text)
    by (right; reflexivity).
  destruct (unique_ratio_counts_distinct_values sizes_with_gaps sizes_info
              Hi Hk) as (Hr & _ & _ & Hc & _).
  repeat split; assumption.
Defined.

(** C3: the claim, as the spec states it, fails on a column with a
    null: four cells, one distinct non-null value.  One over four is
    below 0.5, yet the column is [text]: the ratio the code compares is
    2/4, the null being counted as a value. *)
Lemma fallback_ratio_counterexample :
  falls_through
    (numeric_inference (take SAMPLE_SIZE (dropna colours_with_gap))
       colours_with_gap) /\
  falls_through
    (datetime_inference (take SAMPLE_SIZE (dropna colours_with_gap))
       colours_with_gap) /\
  nunique colours_with_gap = 1 /\
  len colours_with_gap = 4 /\
  (1 # 4 < 1 # 2)%Q /\
  infer_series colours_with_gap = Return colours_info /\
  type colours_info = text /\
  type colours_info <> category.
Proof.
  split; [apply falls_through_Raise; reflexivity |].
  split; [apply falls_through_Raise; reflexivity |].
  vm_compute. repeat split; congruence.
Qed.

Lemma fallback_classifies_by_distinct_values_witness :
  falls_through
    (numeric_inference (take SAMPLE_SIZE (dropna colours_with_gap))
       colours_with_gap) /\
  falls_through
    (datetime_inference (take SAMPLE_SIZE (dropna colours_with_gap))
       colours_with_gap) /\
  exists info,
    infer_series colours_with_gap = Return info /\
    unique_ratio info
    = Some (round2 (binary64 (len (unique colours_with_gap)
                              # Z.to_pos (len colours_with_gap)))) /\
    (type info = category \/ type info = text).
Proof.
  assert (Hn : falls_through
                 (numeric_inference
                    (take SAMPLE_SIZE (dropna colours_with_gap))
                    colours_with_gap))
    by (apply falls_through_Raise; reflexivity).
  assert (Hd : falls_through
                 (datetime_inference
                    (take SAMPLE_SIZE (dropna colours_with_gap))
                    colours_with_gap))
    by (apply falls_through_Raise; reflexivity).
  destruct (fallback_classifies_by_distinct_values colours_with_gap Hn Hd)
    as (info & Hi & _ & _ & Hr & _ & _ & Hk & _).
  split; [exact Hn |]. split; [exact Hd |].
  exists info. repeat split; assumption.
Defined.

Lemma fallback_division_never_by_zero_witness :
  validate_dataframe mixed_table = accepted /\
  columns mixed_table !! 3%nat = Some "colour" /\
  len (iloc_column mixed_table 3) = len (rows mixed_table) /\
  0 < len (iloc_column mixed_table 3) /\
  true_div (len (unique (iloc_column mixed_table 3)))
    (len (iloc_column mixed_table 3))
  = Return (binary64 (len (unique (iloc_column mixed_table 3))
                      # Z.to_pos (len (iloc_column mixed_table 3)))).
Proof.
  assert (Hv : validate_dataframe mixed_table = accepted) by reflexivity.
  assert (Hi : columns mixed_table !! 3%nat = Some "colour") by reflexivity.
  destruct (fallback_division_never_by_zero mixed_table 3 "colour" Hv Hi)
    as (_ & Hlen & Hpos & Hdiv & _).
  repeat split; assumption.
Defined.

Lemma infer_one_entry_per_column_witness :
  validate_dataframe Overflowing.faulty_table = accepted /\
  exists type_info,
    infer_and_convert_types (Pandas0 := Overflowing.overflowing_pandas)
      Overflowing.faulty_table = Return type_info /\
    type_info.*1 = columns Overflowing.faulty_table.
Proof.
  assert (Hv : validate_dataframe Overflowing.faulty_table = accepted)
    by reflexivity.
  destruct (infer_one_entry_per_column
              (Pandas0 := Overflowing.overflowing_pandas)
              Overflowing.faulty_table Hv)
    as (type_info & Hret & Hkeys & _).
  split; [exact Hv |]. exists type_info. by split.
Defined.

(** On that table the middle column makes the datetime parser overflow:
    its entry is the error entry, its neighbours are classified. *)
Example infer_isolates_failing_column :
  infer_and_convert_types (Pandas0 := Overflowing.overflowing_pandas)
    Overflowing.faulty_table
  = Return
      [("a", {| type := integer; sample_values := Some ["1"; "2"];
                original_type := Some "object"; null_count := Some 0;
                unique_count := Some 2; unique_ratio := None;
                error_text := None |});
       ("b", {| type := error; sample_values := None;
                original_type := None; null_count := None;
                unique_count := None; unique_ratio := None;
                error_text :=
                  Some "signed integer is greater than maximum" |});
       ("c", {| type := datetime;
                sample_values := Some ["2023-01-01"; "2023-02-01"];
                original_type := Some "object"; null_count := Some 0;
                unique_count := Some 2; unique_ratio := None;
                error_text := None |})].
Proof. vm_compute. reflexivity. Qed.

(** Without validation a repeated label selects a frame; the entry of
    that label is an error entry and the other column is classified. *)
Example infer_on_duplicated_labels :
  (fun d => (d.*1, type <$> d.*2))
    <$> infer_and_convert_types
          (Frame ["a"; "a"; "b"] [[Some "1"; Some "2"; Some "z"]])
  = Return (["a"; "b"], [error; text]).
Proof. vm_compute. reflexivity. Qed.



Lemma datetime_branch_follows_numeric_witness :
  (exists info, infer_series dates = Return info /\ type info = datetime) /\
  infer_series colours_with_gap
  = categorical_inference (take SAMPLE_SIZE (dropna colours_with_gap))
      colours_with_gap.
Proof.
  pose proof (datetime_branch_follows_numeric text_pandas dates)
    as [Hdates _].
  pose proof (datetime_branch_follows_numeric text_pandas colours_with_gap)
    as (_ & _ & Hfall).
  split.
  - destruct Hdates as (info & Hi & _ & Ht & _).
    + apply falls_through_Raise. reflexivity.
    + reflexivity.
    + by exists info.
  - apply Hfall; apply falls_through_Raise; reflexivity.
Defined.

(** C6: the claim, as the spec states it, fails on a column whose cells
    are dates in two formats.  Each cell of [mixed_dates] parses as a
    date when it is alone and the numeric attempt fell through, yet the
    one call on the whole column raises [ValueError] at the second cell
    and the column is [text]. *)
Lemma datetime_format_counterexample :
  to_datetime (Pandas := Locking.locking_pandas) [Some "2023-01-01"]
  = Return () /\
  to_datetime (Pandas := Locking.locking_pandas) [Some "01/02/2023"]
  = Return () /\
  falls_through
    (numeric_inference (Pandas0 := Locking.locking_pandas)
       (take SAMPLE_SIZE (dropna Locking.mixed_dates)) Locking.mixed_dates) /\
  falls_through
    (to_datetime (Pandas := Locking.locking_pandas) Locking.mixed_dates) /\
  type <$> infer_series (Pandas0 := Locking.locking_pandas)
             Locking.mixed_dates
  = Return text.
Proof.
  split; [reflexivity |]. split; [reflexivity |].
  split; [apply falls_through_Raise; reflexivity |].
  split; [apply falls_through_Raise; reflexivity |].
  vm_compute. reflexivity.
Qed.

Lemma oversized_table_rejected_witness :
  validate_file upload = (true, None) /\
  MAX_COLUMNS < len (columns wide_table) /\
  process_file (Return upload) (fun _ => Return wide_table)
  = Failure HTTP_400_BAD_REQUEST
      (Some "Too many columns. Maximum allowed: 100").
Proof.
  assert (Hf : validate_file upload = (true, None)) by reflexivity.
  assert (Hr : read_with_encodings (fun _ => Return wide_table) ENCODINGS
               = Return (Some wide_table)) by reflexivity.
  assert (Hc : MAX_COLUMNS < len (columns wide_table)) by reflexivity.
  destruct (oversized_table_rejected_before_inference
              infer_and_convert_types upload (fun _ => Return wide_table)
              wide_table Hf Hr (or_introl Hc))
    as (reason & Hrej & _ & _ & Hreal).
  split; [exact Hf |]. split; [exact Hc |].
  rewrite (Hreal text_pandas). f_equal. f_equal.
  assert (E : validate_dataframe wide_table
              = (false, Some "Too many columns. Maximum allowed: 100"))
    by reflexivity.
  rewrite E in Hrej. by injection Hrej as <-.
Defined.

(** ** The spec's sample columns *)

Example integral_literals_are_integer :
  type <$> infer_series integers = Return integer.
Proof. vm_compute. reflexivity. Qed.

Example one_fraction_makes_float :
  type <$> infer_series decimals = Return float.
Proof. vm_compute. reflexivity. Qed.

Example parseable_dates_are_datetime :
  type <$> infer_series dates = Return datetime.
Proof. vm_compute. reflexivity. Qed.

Example eight_distinct_of_ten_is_text :
  (fun i => (type i, unique_ratio i)) <$> infer_series eight_of_ten
  = Return (text, Some (4 # 5)%Q).
Proof. vm_compute. reflexivity. Qed.

Example three_distinct_of_ten_is_category :
  (fun i => (type i, unique_ratio i)) <$> infer_series three_of_ten
  = Return (category, Some (3 # 10)%Q).
Proof. vm_compute. reflexivity. Qed.

Example mixed_table_kinds :
  (fun d => (d.*1, type <$> d.*2)) <$> infer_and_convert_types mixed_table
  = Return (["n"; "x"; "when"; "colour"], [integer; float; datetime; text]).
Proof. vm_compute. reflexivity. Qed.

Example duplicate_labels_rejected :
  validate_dataframe (value := string)
    (Frame ["a"; "a"; "b"] [[Some "1"; None; Some "x"]])
  = rejected DuplicateColumnNames.
Proof. vm_compute. reflexivity. Qed.

Example empty_table_rejected :
  validate_dataframe (value := string) (Frame ["a"] []) = rejected EmptyTable.
Proof. vm_compute. reflexivity. Qed.

Example process_file_success :
  match process_file (Return upload) (fun _ => Return mixed_table) with
  | Success data =>
      (Payload.status data, Payload.total_rows data,
       Payload.total_columns data, Payload.columns data)
      = ("success", 4, 4, ["n"; "x"; "when"; "colour"])
  | Failure _ _ => False
  end.
Proof. vm_compute. reflexivity. Qed.

Example process_file_falls_back_on_encoding :
  process_file (Return upload)
    (fun encoding =>
       if String.eqb encoding "latin1" then Return wide_table
       else Raise (Exc UnicodeDecodeError "invalid start byte"))
  = Failure HTTP_400_BAD_REQUEST
      (Some "Too many columns. Maximum allowed: 100").
Proof. vm_compute. reflexivity. Qed.

Lemma validate_dataframe_four_checks_witness :
  validate_dataframe (value := string)
    (Frame ["a"; "a"; "b"] [[Some "1"; Some "2"; Some "3"]; [None; None; None]])
  = rejected DuplicateColumnNames.
Proof.
  apply (validate_dataframe_four_checks_in_order
           (Frame (value := string) ["a"; "a"; "b"]
              [[Some "1"; Some "2"; Some "3"]; [None; None; None]])).
  - reflexivity.
  - vm_compute. split; congruence.
Defined.

Lemma validate_file_extension_witness :
  truthy (File "DATA.CSV" (Some 12)) = true /\
  Path.lower (Path.splitext_ext "DATA.CSV") = ".csv" /\
  (validate_file (File "DATA.CSV" (Some 12)) = (true, None) \/
   validate_file (File "DATA.CSV" (Some 12)) = (false, Some size_message) \/
   validate_file (File "DATA.CSV" (Some 12))
   = (false, Some "File validation failed")).
Proof.
  assert (Ht : truthy (File "DATA.CSV" (Some 12)) = true) by reflexivity.
  assert (He : Path.lower (Path.splitext_ext "DATA.CSV") = ".csv")
    by reflexivity.
  split; [exact Ht |]. split; [exact He |].
  exact (proj1 (proj2 (validate_file_extension_case_insensitive
                         (File "DATA.CSV" (Some 12)))) Ht He).
Defined.

(** * More of the view set *)

(** ** [validate_file]: the whole decision table *)

(** Two of the conditions at hand exclude each other. *)
Ltac clash :=
  repeat match goal with
         | K : _ /\ _ |- _ => destruct K
         | K : exists _, _ |- _ => destruct K
         end;
  simplify_eq; first [done | contradiction | congruence | lia | eauto].

Lemma validate_file_cases (f : file_obj) :
  let extension_ok := Path.lower (Path.splitext_ext (name f)) = ".csv" in
  (validate_file f = (false, Some "No file provided") /\ truthy f = false) \/
  (validate_file f = (false, Some invalid_type_message) /\
     truthy f = true /\ ~ extension_ok) \/
  (validate_file f = (false, Some "File validation failed") /\
     truthy f = true /\ extension_ok /\ size f = None) \/
  (validate_file f = (false, Some "File size exceeds 10MB limit") /\
     truthy f = true /\ extension_ok /\
     exists n, size f = Some n /\ 10 * 1024 * 1024 < n) \/
  (validate_file f = (true, None) /\
     truthy f = true /\ extension_ok /\
     exists n, size f = Some n /\ n <= 10 * 1024 * 1024).
Proof.
  intros extension_ok. unfold extension_ok, validate_file, ALLOWED_EXTENSIONS.
  destruct (truthy f); simpl; [| by left].
  right.
  destruct (decide (Path.lower (Path.splitext_ext (name f)) = ".csv"))
    as [E | NE].
  2:{ left. rewrite bool_decide_eq_false_2
        by (by rewrite list_elem_of_singleton). by simpl. }
  right. rewrite E.
  rewrite bool_decide_eq_true_2 by (by apply list_elem_of_singleton).
  simpl. unfold get_size.
  destruct (size f) as [n |]; simpl; [| by left].
  right. change MAX_FILE_SIZE with (10 * 1024 * 1024).
  destruct (Z.gtb_spec n (10 * 1024 * 1024)) as [Hbig | Hsmall].
  - left. repeat split; try done. exists n. split; [done | lia].
  - right. repeat split; try done. by exists n.
Qed.

(** X1.  [validate_file] accepts a file exactly when it has a name, the
    lower-cased extension of the name is [.csv] and its size can be read
    and is at most [MAX_FILE_SIZE] (10 MB, the bound included).  A file
    without a name gets "No file provided"; a size above the bound gets
    the size message and a size that cannot be read gets "File
    validation failed", both only once the extension has passed. *)
Theorem validate_file_decision_table (f : file_obj) :
  let extension_ok := Path.lower (Path.splitext_ext (name f)) = ".csv" in
  (validate_file f = (true, None) <->
     truthy f = true /\ extension_ok /\
     exists n, size f = Some n /\ n <= 10 * 1024 * 1024) /\
  (validate_file f = (false, Some "No file provided") <-> truthy f = false) /\
  (validate_file f = (false, Some "File size exceeds 10MB limit") <->
     truthy f = true /\ extension_ok /\
     exists n, size f = Some n /\ 10 * 1024 * 1024 < n) /\
  (validate_file f = (false, Some "File validation failed") <->
     truthy f = true /\ extension_ok /\ size f = None).
Proof.
  intros extension_ok.
  destruct (validate_file_cases f)
    as [[E H] | [[E H] | [[E H] | [[E H] | [E H]]]]];
    fold extension_ok in H; rewrite E;
    repeat split; intros; try discriminate; try done;
    unfold extension_ok in *; clash.
Qed.

(** ** [process_file]: which file and which decoding *)

Section Loading.
Context {value : Type}.
Implicit Types (read_csv : string -> result (DataFrame value)).
Implicit Types (df : DataFrame value) (encodings : list string).

Lemma read_with_encodings_skip read_csv (pre rest : list string) :
  Forall (undecodable read_csv) pre ->
  read_with_encodings read_csv (pre ++ rest)%list
  = read_with_encodings read_csv rest.
Proof.
  induction 1 as [| enc pre (e & He & Hc) _ IH]; [done |].
  simpl. by rewrite He, Hc.
Qed.

Lemma read_with_encodings_cases read_csv encodings :
  (Forall (undecodable read_csv) encodings /\
   read_with_encodings read_csv encodings = Return None) \/
  (exists pre encoding post,
     encodings = (pre ++ encoding :: post)%list /\
     Forall (undecodable read_csv) pre /\
     ~ undecodable read_csv encoding /\
     read_with_encodings read_csv encodings = read_csv encoding ≫= (fun df => Return (Some df))).
Proof.
  induction encodings as [| enc rest IH]; [left; by split |].
  destruct (read_csv enc) as [df | e] eqn:Hr.
  - right. exists [], enc, rest. repeat split; [constructor | | ].
    + intros (e & He & _). congruence.
    + simpl. by rewrite Hr.
  - destruct (decide (exc_type e = UnicodeDecodeError)) as [Hc | Hc].
    + assert (Hu : undecodable read_csv enc) by by exists e.
      destruct IH as [[Hall Hnone] | (pre & enc' & post & -> & Hpre & Hn & Hres)].
      * left. split; [by constructor |]. simpl. by rewrite Hr, Hc.
      * right. exists (enc :: pre), enc', post.
        repeat split; [by constructor | exact Hn |].
        simpl. by rewrite Hr, Hc.
    + right. exists [], enc, rest. repeat split; [constructor | |].
      * intros (e' & He' & Hc'). congruence.
      * simpl. rewrite Hr. simpl. destruct (exc_type e); congruence.
Qed.

End Loading.

Section ProcessFile.
Context {value : Type}.
Implicit Types (read_csv : string -> result (DataFrame value)).
Implicit Types (engine : DataFrame value -> result (type_info_dict value)).
Implicit Types (df : DataFrame value) (file : file_obj).

(** What the outer handlers of [process_file] make of an exception. *)
Lemma process_file_with_valid engine file read_csv :
  validate_file file = (true, None) ->
  process_file_with engine (Return file) read_csv
  = match load_and_analyse engine file read_csv with
    | Return r => r
    | Raise e =>
        match exc_type e with
        | DoesNotExist => Failure HTTP_404_NOT_FOUND (Some "File not found")
        | _ =>
            Failure HTTP_500_INTERNAL_SERVER_ERROR
              (Some ("An unexpected error occurred: " +:+ exc_str e))
        end
    end.
Proof.
  intros Hf. unfold process_file_with. simpl.
  by rewrite (validate_file_passed file Hf), Hf.
Qed.

Lemma load_and_analyse_same_reading engine file read_csv read_csv' :
  read_with_encodings read_csv ENCODINGS
  = read_with_encodings read_csv' ENCODINGS ->
  load_and_analyse engine file read_csv
  = load_and_analyse engine file read_csv'.
Proof. intros H. unfold load_and_analyse. by rewrite H. Qed.

(** X2.  The encodings are tried in order and the first one for which
    [pd.read_csv] does not raise [UnicodeDecodeError] decides alone:
    the response is the one a loader answering like that encoding for
    every encoding would get, whether it returned a table or raised.
    The encodings after it are not tried. *)
Theorem first_decodable_encoding_decides engine file read_csv
    (pre post : list string) (encoding : string) :
  ENCODINGS = (pre ++ encoding :: post)%list ->
  Forall (undecodable read_csv) pre ->
  ~ undecodable read_csv encoding ->
  process_file_with engine (Return file) read_csv
  = process_file_with engine (Return file) (fun _ => read_csv encoding).
Proof.
  intros Henc Hpre Hdec.
  assert (Hread : read_with_encodings read_csv ENCODINGS
                  = read_with_encodings (fun _ => read_csv encoding) ENCODINGS).
  { rewrite Henc at 1. rewrite (read_with_encodings_skip _ _ _ Hpre).
    change ENCODINGS with ("utf-8" :: ["latin1"; "iso-8859-1"]).
    cbn [read_with_encodings].
    destruct (read_csv encoding) as [df | e] eqn:Hr; [done |].
    destruct (decide (exc_type e = UnicodeDecodeError)) as [Hc | Hc].
    - exfalso. apply Hdec. by exists e.
    - destruct (exc_type e); congruence. }
  unfold process_file_with. simpl.
  destruct (truthy file); simpl; [| done].
  destruct (validate_file file) as [[] msg]; simpl; [| done].
  by rewrite (load_and_analyse_same_reading _ _ _ _ Hread).
Qed.

(** X3.  When the file passes [validate_file] and [pd.read_csv] raises
    [UnicodeDecodeError] for each of the three encodings, the response
    is a bad request saying that the file cannot be decoded; inference
    plays no part. *)
Theorem undecodable_file_is_bad_request engine file read_csv :
  validate_file file = (true, None) ->
  Forall (undecodable read_csv) ENCODINGS ->
  process_file_with engine (Return file) read_csv
  = Failure 400 (Some "Unable to decode file with supported encodings").
Proof.
  intros Hf Hall. rewrite (process_file_with_valid _ _ _ Hf).
  unfold load_and_analyse.
  rewrite <- (app_nil_r ENCODINGS).
  by rewrite (read_with_encodings_skip _ _ _ Hall).
Qed.

(** X4.  When the file passes [validate_file] and loading ends in an
    exception (the first encoding that is not undecodable raised it),
    the class of the exception picks the response: [EmptyDataError] is
    the bad request "The file is empty", [ParserError] the bad request
    "Invalid CSV format", [DoesNotExist] the not-found "File not found",
    and any other class is an internal error whose message ends with
    the text of the exception. *)
Theorem loader_exception_to_response engine file read_csv (e : exception) :
  validate_file file = (true, None) ->
  read_with_encodings read_csv ENCODINGS = Raise e ->
  exc_type e <> UnicodeDecodeError /\
  process_file_with engine (Return file) read_csv
  = match exc_type e with
    | EmptyDataError => Failure 400 (Some "The file is empty")
    | ParserError => Failure 400 (Some "Invalid CSV format")
    | DoesNotExist => Failure 404 (Some "File not found")
    | _ => Failure 500 (Some ("An unexpected error occurred: " +:+ exc_str e))
    end.
Proof.
  intros Hf Hread. split.
  - destruct (read_with_encodings_cases read_csv ENCODINGS)
      as [[_ Hnone] | (pre & enc & post & _ & _ & Hn & Hres)].
    + congruence.
    + rewrite Hread in Hres. intros Hc. apply Hn. exists e.
      destruct (read_csv enc); [discriminate Hres |].
      injection Hres as <-. by split.
  - rewrite (process_file_with_valid _ _ _ Hf).
    unfold load_and_analyse. rewrite Hread.
    destruct e as [c m]. by destruct c.
Qed.

(** X5.  The file is checked before it is read.  When fetching the
    object raises, the response is the not-found "File not found" for
    [DoesNotExist] and an internal error otherwise; a file without a
    name is the not-found "File not found on server"; a file that
    [validate_file] turns away is a bad request with the validator's
    message.  None of these responses depends on the loader or on the
    inference method. *)
Theorem file_is_checked_before_loading engine read_csv :
  (forall e,
     process_file_with engine (Raise e) read_csv
     = match exc_type e with
       | DoesNotExist => Failure 404 (Some "File not found")
       | _ =>
           Failure 500 (Some ("An unexpected error occurred: " +:+ exc_str e))
       end) /\
  (forall file,
     truthy file = false ->
     process_file_with engine (Return file) read_csv
     = Failure 404 (Some "File not found on server")) /\
  (forall file reason,
     truthy file = true ->
     validate_file file = (false, reason) ->
     process_file_with engine (Return file) read_csv = Failure 400 reason).
Proof.
  split; [| split].
  - intros [c m]. unfold process_file_with. by destruct c.
  - intros file Ht. unfold process_file_with. simpl. by rewrite Ht.
  - intros file reason Ht Hv. unfold process_file_with. simpl.
    by rewrite Ht, Hv.
Qed.

End ProcessFile.

(** ** [process_file]: the successful response *)

Section Records.
Context {value : Type}.
Implicit Types (row : list (cell value)) (labels : list string).

Lemma record_from_NoDup (k : nat) labels row
    (acc : list (string * cell value)) :
  NoDup (acc.*1 ++ labels)%list ->
  record_from k labels row acc
  = (acc ++ imap (fun j l => (l, default None (row !! (k + j)%nat))) labels)%list.
Proof.
  revert k acc; induction labels as [| l rest IH]; intros k acc Hnd.
  - simpl. by rewrite app_nil_r.
  - apply NoDup_app in Hnd as Hparts. destruct Hparts as (Hacc & Hdisj & Hlab).
    apply NoDup_cons in Hlab as [Hl Hrest].
    cbn [record_from]. rewrite dict_set_fresh.
    2:{ intros H. apply (Hdisj l H). by left. }
    rewrite IH.
    + rewrite <- app_assoc. cbn [imap app]. rewrite Nat.add_0_r.
      do 2 f_equal. apply imap_ext. intros j x _. simpl.
      by rewrite Nat.add_succ_r.
    + rewrite fmap_app. simpl. rewrite <- app_assoc. simpl.
      apply NoDup_app. split; [done |]. split.
      * intros x Hx [-> | Hin]%elem_of_cons; [| by apply (Hdisj x Hx); right].
        apply (Hdisj l Hx). by left.
      * by apply NoDup_cons.
Qed.

Lemma fst_imap_label {B} (f : nat -> string -> B) labels :
  (imap (fun j l => (l, f j l)) labels).*1 = labels.
Proof.
  revert f; induction labels as [| l rest IH]; intros f; [done |].
  cbn [imap fmap list_fmap]. simpl. f_equal. apply (IH (f ∘ S)).
Qed.

(** With distinct labels a record has one item per column, in column
    order: the label and the cell of the row at that position. *)
Lemma record_from_columns labels row :
  NoDup labels ->
  record_from 0 labels row []
  = imap (fun j l => (l, default None (row !! j))) labels.
Proof.
  intros Hnd. by rewrite record_from_NoDup.
Qed.

End Records.

Section SuccessfulResponse.
Context {value : Type} `{!Pandas value}.
Implicit Types (read_csv : string -> result (DataFrame value)).
Implicit Types (df : DataFrame value) (file : file_obj).
Implicit Types (data : Payload.response_data value).

(** The payload [process_file] builds from a file and a table. *)
Lemma process_file_Success_inv file read_csv data :
  process_file (Return file) read_csv = Success data ->
  exists df n,
    validate_file file = (true, None) /\
    read_with_encodings read_csv ENCODINGS = Return (Some df) /\
    validate_dataframe df = accepted /\
    size file = Some n /\
    data = {| Payload.status := "success";
              Payload.file_name := name file;
              Payload.file_size := n;
              Payload.total_rows := len (rows df);
              Payload.total_columns := len (columns df);
              Payload.column_types := infer_loop df;
              Payload.columns := columns df;
              Payload.sample_data := to_dict_records (head SAMPLE_SIZE df) |}.
Proof.
  unfold process_file, process_file_with, load_and_analyse.
  destruct (read_with_encodings read_csv ENCODINGS) as [[df |] | [c m]]
    eqn:Hr; simpl;
    (destruct (truthy file) eqn:Ht; simpl; [| discriminate]);
    (destruct (validate_file_cases file)
       as [[E H] | [[E H] | [[E H] | [[E H] | [E H]]]]];
     rewrite E; simpl; try discriminate);
    [| by destruct c].
  destruct H as (_ & _ & n & Hn & _).
  destruct (validate_dataframe_cases df)
    as [[E' H'] | [[E' H'] | [[E' H'] | [[E' H'] | [E' H']]]]];
    rewrite E'; simpl; try discriminate.
  unfold get_size. rewrite Hn. simpl. intros [= <-].
  by exists df, n.
Qed.

(** X6.  [process_file] answers with the success payload exactly when
    the file passes [validate_file], some encoding yields a table and
    the table passes [validate_dataframe]; inference itself never makes
    the request fail. *)
Theorem process_file_succeeds_iff file read_csv :
  (exists data, process_file (Return file) read_csv = Success data) <->
  validate_file file = (true, None) /\
  exists df,
    read_with_encodings read_csv ENCODINGS = Return (Some df) /\
    validate_dataframe df = accepted.
Proof.
  split.
  - intros (data & Hs).
    destruct (process_file_Success_inv _ _ _ Hs)
      as (df & n & Hf & Hr & Hv & _).
    split; [exact Hf |]. by exists df.
  - intros (Hf & df & Hr & Hv).
    unfold process_file. rewrite (process_file_with_valid _ _ _ Hf).
    unfold load_and_analyse. rewrite Hr. simpl. rewrite Hv. simpl.
    destruct (validate_file_cases file)
      as [[E H] | [[E H] | [[E H] | [[E H] | [E H]]]]];
      rewrite Hf in E; try discriminate E.
    destruct H as (_ & _ & n & Hn & _).
    unfold get_size. rewrite Hn. simpl. by eexists.
Qed.

(** X7.  What a success payload says about the upload: the file's size
    is at most 10 MB and its name has extension [.csv] (in any case);
    the table has between 1 and 1,000,000 rows and between 1 and 100
    columns, all named differently; [total_columns] is the number of
    names in [columns], and [column_types] has exactly those names as
    its keys, in the same order. *)
Theorem success_payload_within_limits file read_csv data :
  process_file (Return file) read_csv = Success data ->
  Payload.status data = "success" /\
  Payload.file_name data = name file /\
  size file = Some (Payload.file_size data) /\
  Payload.file_size data <= 10 * 1024 * 1024 /\
  Path.lower (Path.splitext_ext (Payload.file_name data)) = ".csv" /\
  1 <= Payload.total_rows data <= 1000000 /\
  1 <= Payload.total_columns data <= 100 /\
  Payload.total_columns data = len (Payload.columns data) /\
  NoDup (Payload.columns data) /\
  (Payload.column_types data).*1 = Payload.columns data.
Proof.
  intros Hs.
  destruct (process_file_Success_inv _ _ _ Hs)
    as (df & n & Hf & Hr & Hv & Hn & ->).
  cbn [Payload.status Payload.file_name Payload.file_size Payload.total_rows
       Payload.total_columns Payload.columns Payload.column_types].
  apply validate_dataframe_accepted in Hv as (Hnd & Hrows & Hcols).
  unfold MAX_ROWS, MAX_COLUMNS in *.
  destruct (validate_file_cases file)
    as [[E H] | [[E H] | [[E H] | [[E H] | [E H]]]]];
    rewrite Hf in E; try discriminate E.
  destruct H as (_ & Hext & m & Hm & Hle).
  assert (m = n) as -> by congruence.
  repeat split; try done; try lia.
  rewrite (infer_loop_NoDup df Hnd). apply fst_map_pair.
Qed.

(** X8.  [sample_data] of a success payload holds the first rows of the
    table, five at most: as many records as [min(5, total_rows)], each
    with one item per column, in column order, pairing the column's
    name with the row's cell in that column (null where the row is
    short). *)
Theorem sample_data_is_the_first_rows file read_csv data :
  process_file (Return file) read_csv = Success data ->
  exists df,
    read_with_encodings read_csv ENCODINGS = Return (Some df) /\
    len (Payload.sample_data data) = Z.min 5 (Payload.total_rows data) /\
    Forall (fun record => record.*1 = Payload.columns data)
      (Payload.sample_data data) /\
    forall (i : nat) (row : list (cell value)),
      (i < 5)%nat -> rows df !! i = Some row ->
      Payload.sample_data data !! i
      = Some (imap (fun j l => (l, default None (row !! j))) (columns df)).
Proof.
  intros Hs.
  destruct (process_file_Success_inv _ _ _ Hs)
    as (df & n & Hf & Hr & Hv & Hn & ->).
  cbn [Payload.sample_data Payload.total_rows Payload.columns].
  apply validate_dataframe_accepted in Hv as (Hnd & Hrows & Hcols).
  exists df. split; [exact Hr |].
  unfold to_dict_records, head. cbn [columns rows].
  rewrite map_fmap.
  split; [| split].
  - unfold len. rewrite length_fmap, length_take. unfold SAMPLE_SIZE. lia.
  - apply Forall_fmap, Forall_forall. intros row _. simpl.
    rewrite (record_from_columns _ _ Hnd). apply fst_imap_label.
  - intros i row Hi Hrow.
    rewrite list_lookup_fmap, lookup_take_lt by (unfold SAMPLE_SIZE; lia).
    rewrite Hrow. simpl. by rewrite (record_from_columns _ _ Hnd).
Qed.

End SuccessfulResponse.

(** X9.  Whatever the stored object, the loader and the inference
    method do, a response of [process_file] that is not the success
    payload has status 400, 404 or 500 and carries an error message
    (never a null one).  Every exception ends in such a response. *)
Theorem failure_has_status_and_message
    {value : Type} (engine : DataFrame value -> result (type_info_dict value))
    (get_object : result file_obj)
    (read_csv : string -> result (DataFrame value))
    (code : Z) (message : option string) :
  process_file_with engine get_object read_csv = Failure code message ->
  code ∈ [400; 404; 500] /\ exists text, message = Some text.
Proof.
  assert (H400 : forall text : string,
             Failure (value := value) 400 (Some text) = Failure code message ->
             code ∈ [400; 404; 500] /\ exists text, message = Some text).
  { intros text [= <- <-]. split; [by left | by eexists]. }
  assert (H404 : forall text : string,
             Failure (value := value) 404 (Some text) = Failure code message ->
             code ∈ [400; 404; 500] /\ exists text, message = Some text).
  { intros text [= <- <-]. split; [right; by left | by eexists]. }
  assert (H500 : forall text : string,
             Failure (value := value) 500 (Some text) = Failure code message ->
             code ∈ [400; 404; 500] /\ exists text, message = Some text).
  { intros text [= <- <-]. split; [right; right; by left | by eexists]. }
  assert (Hexc : forall e : exception,
             match exc_type e with
             | DoesNotExist =>
                 Failure (value := value) HTTP_404_NOT_FOUND
                   (Some "File not found")
             | _ =>
                 Failure HTTP_500_INTERNAL_SERVER_ERROR
                   (Some ("An unexpected error occurred: " +:+ exc_str e))
             end = Failure code message ->
             code ∈ [400; 404; 500] /\ exists text, message = Some text).
  { intros [c m]. destruct c; simpl; first [apply H404 | apply H500]. }
  unfold process_file_with, load_and_analyse.
  destruct get_object as [file | e]; [| apply Hexc].
  destruct (read_with_encodings read_csv ENCODINGS) as [[df |] | e] eqn:Hr;
    cbn [mbind result_bind bind];
    (destruct (truthy file) eqn:Ht; cbn [negb]; [| apply H404]);
    (destruct (validate_file_cases file)
       as [[E H] | [[E H] | [[E H] | [[E H] | [E H]]]]];
     rewrite E; cbn [negb]; try apply H400).
  - destruct (validate_dataframe_cases df)
      as [[E' H'] | [[E' H'] | [[E' H'] | [[E' H'] | [E' H']]]]];
      rewrite E'; cbn [negb rejected accepted]; try apply H400.
    destruct (engine df) as [type_info | e]; cbn [mbind result_bind bind].
    + destruct (get_size file) as [n | e]; cbn [mbind result_bind bind];
        [discriminate |].
      destruct e as [c m]. destruct c; simpl;
        first [apply H400 | apply H404 | apply H500].
    + destruct e as [c m]. destruct c; simpl;
        first [apply H400 | apply H404 | apply H500].
  - destruct e as [c m]. destruct c; simpl;
      first [apply H400 | apply H404 | apply H500].
Qed.

(** ** [infer_and_convert_types] on any frame *)

Section AnyFrame.
Context {value : Type} `{!Pandas value}.
Implicit Types (s : Series value) (df : DataFrame value).
Implicit Types (labels : list string).

Lemma unique_from_ext {A} `{EqDecision A} (seen seen' l : list A) :
  (forall x, x ∈ seen <-> x ∈ seen') ->
  unique_from seen l = unique_from seen' l.
Proof.
  revert seen seen'; induction l as [| a l IH]; intros seen seen' Hext; [done |].
  simpl. destruct (decide (a ∈ seen)) as [Hin | Hnin].
  - rewrite decide_True by (by apply Hext). by apply IH.
  - rewrite decide_False by (by rewrite <- Hext). f_equal. apply IH.
    intros x. rewrite !elem_of_cons, Hext. tauto.
Qed.

Lemma dict_set_present {V} (f : string -> V) (keys : list string) (k : string) :
  k ∈ keys ->
  dict_set (map (fun c => (c, f c)) keys) k (f k)
  = map (fun c => (c, f c)) keys.
Proof.
  induction keys as [| c keys IH]; intros Hk; [by apply elem_of_nil in Hk |].
  simpl. destruct (decide (c = k)) as [-> | Hne]; [done |].
  f_equal. apply IH. apply elem_of_cons in Hk as [-> | Hk]; done.
Qed.

Lemma foldl_dict_set_any {V} (f : string -> V) (keys labels : list string) :
  foldl (fun d c => dict_set d c (f c)) (map (fun c => (c, f c)) keys) labels
  = map (fun c => (c, f c)) (keys ++ unique_from keys labels)%list.
Proof.
  revert keys; induction labels as [| l rest IH]; intros keys.
  - simpl. by rewrite app_nil_r.
  - cbn [foldl unique_from]. destruct (decide (l ∈ keys)) as [Hin | Hnin].
    + rewrite dict_set_present by done. apply IH.
    + rewrite dict_set_fresh by (by rewrite fst_map_pair).
      change [(l, f l)] with (map (fun c => (c, f c)) [l]).
      rewrite <- map_app, IH, <- app_assoc. cbn [app].
      do 3 f_equal. apply unique_from_ext.
      intros x. rewrite elem_of_app, list_elem_of_singleton, elem_of_cons.
      tauto.
Qed.

(** The loop leaves one entry per distinct label, at the place of the
    label's first occurrence. *)
Lemma infer_loop_any df :
  infer_loop df
  = map (fun c => (c, classify_column df c)) (unique_from [] (columns df)).
Proof.
  unfold infer_loop.
  by rewrite (foldl_dict_set_any (classify_column df) [] (columns df)).
Qed.

Lemma positions_from_elem (k i : nat) labels (c : string) :
  labels !! i = Some c -> (k + i)%nat ∈ positions_from k labels c.
Proof.
  revert k i; induction labels as [| l rest IH]; intros k i Hi; [done |].
  simpl. destruct i as [| i]; simpl in Hi.
  - injection Hi as ->. rewrite decide_True by done.
    rewrite Nat.add_0_r. by left.
  - specialize (IH (S k) i Hi). rewrite Nat.add_succ_r.
    destruct (decide (l = c)); [by right | done].
Qed.

Lemma positions_from_once (k i : nat) labels (c : string) :
  labels !! i = Some c ->
  (forall j, labels !! j = Some c -> j = i) ->
  positions_from k labels c = [(k + i)%nat].
Proof.
  revert k i; induction labels as [| l rest IH]; intros k i Hi Honce; [done |].
  simpl. destruct i as [| i]; simpl in Hi.
  - injection Hi as ->. rewrite decide_True by done.
    rewrite positions_from_absent, Nat.add_0_r; [done |].
    intros (j & Hj)%list_elem_of_lookup_1.
    by specialize (Honce (S j) Hj).
  - destruct (decide (l = c)) as [-> | _].
    + by specialize (Honce 0%nat eq_refl).
    + rewrite (IH (S k) i Hi); [by rewrite Nat.add_succ_r |].
      intros j Hj. specialize (Honce (S j) Hj). lia.
Qed.

(** X10.  On any frame, validated or not, inference returns (it never
    raises): the dict has one entry per distinct column label, in the
    order in which the labels first occur, and the entry of a label is
    the classification of [df[label]]. *)
Theorem infer_keys_are_the_distinct_labels df :
  exists type_info,
    infer_and_convert_types df = Return type_info /\
    type_info.*1 = unique_from [] (columns df) /\
    NoDup type_info.*1 /\
    (forall c, c ∈ type_info.*1 <-> c ∈ columns df) /\
    (forall c info, (c, info) ∈ type_info -> info = classify_column df c).
Proof.
  exists (infer_loop df). split; [reflexivity |].
  rewrite infer_loop_any, fst_map_pair.
  destruct (unique_from_spec [] (columns df)) as [Hnd Hel].
  split; [reflexivity |]. split; [exact Hnd |]. split.
  - intros c. rewrite Hel, elem_of_nil. tauto.
  - intros c info Hin. rewrite map_fmap in Hin.
    apply list_elem_of_fmap in Hin as (c' & [= -> ->] & _). reflexivity.
Qed.

(** X11.  A label carried by two columns selects a frame, not a Series,
    and its entry is an error entry with the text of the
    [AttributeError]; a label carried by one column only is classified
    from that column, also when other labels of the frame repeat. *)
Theorem repeated_label_gives_error_entry df (c : string) (i : nat) :
  columns df !! i = Some c ->
  ((exists j, j <> i /\ columns df !! j = Some c) ->
   classify_column df c
   = error_info
       (Exc AttributeError "'DataFrame' object has no attribute 'tolist'")) /\
  ((forall j, columns df !! j = Some c -> j = i) ->
   classify_column df c
   = try_except (infer_series (iloc_column df i)) error_info).
Proof.
  intros Hi. split.
  - intros (j & Hne & Hj). unfold classify_column, getitem.
    pose proof (positions_from_elem 0 i _ _ Hi) as Pi.
    pose proof (positions_from_elem 0 j _ _ Hj) as Pj.
    destruct (positions_from 0 (columns df) c) as [| p [| q ps]].
    + by apply elem_of_nil in Pi.
    + apply list_elem_of_singleton in Pi, Pj. simpl in *. lia.
    + reflexivity.
  - intros Honce. unfold classify_column, getitem.
    by rewrite (positions_from_once 0 i _ _ Hi Honce).
Qed.

(** X12.  On a frame without rows (which validation would turn away)
    every column is an empty Series: the numeric attempt succeeds on it
    and each entry is [integer] with no sample and both counts 0, so the
    division of the fallback is not reached. *)
Theorem frame_without_rows_is_all_integer df :
  rows df = [] ->
  NoDup (columns df) ->
  infer_and_convert_types df
  = Return (map (fun c => (c, typed integer [] [] None)) (columns df)) /\
  null_count (typed integer [] [] None) = Some 0 /\
  unique_count (typed integer [] [] None) = Some 0.
Proof.
  intros Hrows Hnd. split; [| by split].
  rewrite infer_and_convert_types_Return, (infer_loop_NoDup df Hnd).
  f_equal. rewrite !map_fmap. apply list_fmap_ext.
  intros i c Hi. f_equal.
  rewrite (classify_column_NoDup df i c Hnd Hi).
  unfold iloc_column. rewrite Hrows. cbn [map].
  by rewrite (infer_series_all_null []) by constructor.
Qed.

End AnyFrame.

(** ** Entries: which keys, which counts *)

(** Half or more stays half or more after rounding, whatever the size. *)
Lemma binary64_ratio_ge_half (a b : Z) :
  0 <= a <= b -> 0 < b -> b <= 2 * a ->
  (1 # 2 <= binary64 (a # Z.to_pos b))%Q.
Proof.
  intros [Ha Hab] Hb Hhalf. unfold binary64. cbn [Qnum].
  destruct a as [| p | p]; [lia | | lia].
  destruct (nearest_positive_ratio (Zpos p) b ltac:(lia)) as (e & He & _ & ->).
  pose proof (pow2_pos e ltac:(lia)) as HE.
  pose proof (pow2_pos (e - 1) ltac:(lia)) as HE1.
  assert (Hdouble : 2 ^ e = 2 * 2 ^ (e - 1)).
  { rewrite <- Z.pow_succ_r by lia. f_equal. lia. }
  assert (Hx : (inject_Z (2 ^ (e - 1))
                <= (Zpos p # Z.to_pos b) * inject_Z (2 ^ e))%Q).
  { unfold Qle, Qmult, inject_Z. cbn [Qnum Qden].
    rewrite Pos.mul_1_r, Z2Pos.id by lia. nia. }
  apply round_half_even_ge in Hx.
  unfold Qle. cbn [Qnum Qden]. rewrite Z2Pos.id by lia. lia.
Qed.

(** A third or less stays under one half after rounding, whatever the
    size. *)
Lemma binary64_ratio_le_third (a b : Z) :
  0 <= a -> 0 < b -> 3 * a <= b ->
  (binary64 (a # Z.to_pos b) < 1 # 2)%Q.
Proof.
  intros Ha Hb Hthird. unfold binary64. cbn [Qnum].
  destruct a as [| p | p]; [reflexivity | | lia].
  destruct (nearest_positive_ratio (Zpos p) b ltac:(lia)) as (e & He & _ & ->).
  pose proof (pow2_pos e ltac:(lia)) as HE.
  pose proof (pow2_pos (e - 1) ltac:(lia)) as HE1.
  assert (Hdouble : 2 ^ e = 2 * 2 ^ (e - 1)).
  { rewrite <- Z.pow_succ_r by lia. f_equal. lia. }
  assert (Hfour : 4 <= 2 ^ e).
  { change 4 with (2 ^ 2). apply Z.pow_le_mono_r; lia. }
  assert (Hm : round_half_even ((Zpos p # Z.to_pos b) * inject_Z (2 ^ e))
               < 2 ^ (e - 1)).
  { apply round_half_even_lt.
    unfold Qlt, Qplus, Qmult, inject_Z. cbn [Qnum Qden].
    rewrite !Pos.mul_1_r, Pos2Z.inj_mul, Z2Pos.id by lia. nia. }
  unfold Qlt. cbn [Qnum Qden]. rewrite Z2Pos.id by lia. lia.
Qed.

Section Entries.
Context {value : Type} `{!Pandas value}.
Implicit Types (s : Series value) (df : DataFrame value).
Implicit Types (info : column_info value).

(** What a returned entry looks like. *)
Lemma infer_series_Return s info :
  infer_series s = Return info ->
  exists (k : kind) (ratio : option Q),
    info = typed k (take SAMPLE_SIZE (dropna s)) s ratio /\
    (((k = integer \/ k = float \/ k = datetime) /\ ratio = None) \/
     ((k = category \/ k = text) /\ 0 < len s /\
      ratio = Some (round2 (binary64 (len (unique s) # Z.to_pos (len s)))))).
Proof.
  intros Hinfo.
  destruct (infer_series_cases s)
    as [(i & Hn & Hi) | [(e & _ & _ & Hi) |
        [(_ & i & Hd & Hi) | [(_ & e & _ & _ & Hi) |
         (_ & _ & Hlen & Hi)]]]];
    rewrite Hi in Hinfo; try discriminate Hinfo.
  - injection Hinfo as ->.
    apply numeric_inference_Return in Hn as (b & _ & ->).
    eexists _, None. split; [reflexivity |]. left.
    split; [destruct b; auto | done].
  - injection Hinfo as ->. apply datetime_inference_Return in Hd as ->.
    eexists _, None. split; [reflexivity |]. left. auto.
  - rewrite (categorical_inference_Return _ s Hlen) in Hinfo.
    injection Hinfo as <-.
    eexists _, _. split; [reflexivity |]. right.
    split; [destruct (Qlt_le_dec _ _); auto | done].
Qed.

(** X13.  The keys of an entry go with its kind, on any frame and for
    any label.  An [error] entry carries the error text and nothing
    else; every other entry carries the sample, the original type and
    the two counts and no error text; [unique_ratio] is there exactly
    for [category] and [text], and then lies in [[0, 1]]. *)
Theorem entry_keys_go_with_the_kind df (c : string) :
  let info := classify_column df c in
  match type info with
  | error =>
      is_Some (error_text info) /\ sample_values info = None /\
      original_type info = None /\ null_count info = None /\
      unique_count info = None /\ unique_ratio info = None
  | category | text =>
      error_text info = None /\ is_Some (sample_values info) /\
      is_Some (original_type info) /\ is_Some (null_count info) /\
      is_Some (unique_count info) /\
      exists r, unique_ratio info = Some r /\ (0 <= r <= 1)%Q
  | integer | float | datetime =>
      error_text info = None /\ is_Some (sample_values info) /\
      is_Some (original_type info) /\ is_Some (null_count info) /\
      is_Some (unique_count info) /\ unique_ratio info = None
  end.
Proof.
  intros info. unfold info, classify_column, infer_selection.
  destruct (getitem df c) as [s | cols]; [| by repeat split].
  destruct (infer_series s) as [i | e] eqn:Hs; [| by repeat split].
  destruct (infer_series_Return _ _ Hs)
    as (k & ratio & -> & [[Hk ->] | (Hk & Hlen & ->)]); simpl.
  - destruct Hk as [-> | [-> | ->]]; by repeat split.
  - pose proof (round2_unit_interval _ (unique_ratio_bounds s Hlen)) as Hr.
    destruct Hk as [-> | ->]; repeat split; try done; by eexists.
Qed.

(** *** Counts *)

Lemma isna_sum_dropna s : isna_sum s + len (dropna s) = len s.
Proof.
  unfold isna_sum, len.
  induction s as [| [v |] s IH].
  - reflexivity.
  - rewrite filter_cons_False by done. rewrite dropna_cons_Some.
    cbn [length]. lia.
  - rewrite filter_cons_True by done. rewrite dropna_cons_None.
    cbn [length]. lia.
Qed.

Lemma NoDup_dropna (l : list (cell value)) : NoDup l -> NoDup (dropna l).
Proof.
  induction 1 as [| [v |] l Hc Hnd IH].
  - constructor.
  - rewrite dropna_cons_Some. apply NoDup_cons. split; [| exact IH].
    by rewrite elem_of_dropna.
  - by rewrite dropna_cons_None.
Qed.

Lemma nunique_le_nonnull s : 0 <= nunique s <= len (dropna s).
Proof.
  unfold nunique, len. split; [lia |].
  apply inj_le, submseteq_length, NoDup_submseteq.
  - apply NoDup_dropna, NoDup_unique.
  - intros v. rewrite !elem_of_dropna, elem_of_unique. tauto.
Qed.

Lemma nunique_zero s : nunique s = 0 <-> dropna s = [].
Proof.
  unfold nunique, len. split.
  - intros Hz. destruct (dropna s) as [| v rest] eqn:Hd; [done |].
    assert (Hv : v ∈ dropna (unique s)).
    { rewrite elem_of_dropna, elem_of_unique, <- elem_of_dropna, Hd.
      by left. }
    destruct (dropna (unique s)); [by apply elem_of_nil in Hv |].
    simpl in Hz. lia.
  - intros Hd. destruct (dropna (unique s)) as [| v rest] eqn:Hu; [done |].
    assert (Hv : v ∈ dropna s).
    { rewrite elem_of_dropna, <- elem_of_unique, <- elem_of_dropna, Hu.
      by left. }
    rewrite Hd in Hv. by apply elem_of_nil in Hv.
Qed.

(** X14.  The counts of an entry fit the column.  [null_count] plus the
    number of non-null cells is the number of cells; [unique_count] is
    at most the number of non-null cells and is 0 exactly when every
    cell is null; [sample_values] are the first non-null cells in
    column order, five of them or all if there are fewer. *)
Theorem entry_counts_fit_the_column s info :
  infer_series s = Return info ->
  exists (nulls distinct : Z) (sample : list value),
    null_count info = Some nulls /\
    unique_count info = Some distinct /\
    sample_values info = Some sample /\
    nulls + len (dropna s) = len s /\
    0 <= nulls <= len s /\
    0 <= distinct <= len s - nulls /\
    (distinct = 0 <-> nulls = len s) /\
    sample = take 5 (dropna s) /\
    len sample = Z.min 5 (len s - nulls).
Proof.
  intros Hs.
  destruct (infer_series_Return _ _ Hs) as (k & ratio & -> & _).
  exists (isna_sum s), (nunique s), (take SAMPLE_SIZE (dropna s)).
  pose proof (isna_sum_dropna s) as Hsum.
  pose proof (nunique_le_nonnull s) as Huniq.
  pose proof (len_nonneg (dropna s)) as Hnn.
  pose proof (nunique_zero s) as Hzero.
  assert (Hnulls : 0 <= isna_sum s) by apply len_nonneg.
  split_and!; try done; try lia.
  - split.
    + intros Hz. apply Hzero in Hz. rewrite Hz in Hsum. unfold len in *.
      simpl in Hsum. lia.
    + intros Hall. apply Hzero.
      destruct (dropna s); [done |]. unfold len in *. simpl in *. lia.
  - unfold len. rewrite length_take. unfold SAMPLE_SIZE, len in *. lia.
Qed.

(** *** The fallback at the ends of its range *)

Lemma categorical_inference_kind s :
  0 < len s ->
  exists info,
    categorical_inference (take SAMPLE_SIZE (dropna s)) s = Return info /\
    (len s <= 2 * len (unique s) -> type info = text) /\
    (3 * len (unique s) <= len s -> type info = category).
Proof.
  intros Hlen. rewrite (categorical_inference_Return _ s Hlen).
  eexists. split; [reflexivity |].
  pose proof (len_nonneg (unique s)) as H0.
  pose proof (len_unique_le s) as H1.
  simpl. destruct (Qlt_le_dec _ _) as [Hlt | Hge]; split; try done.
  - intros Hhalf. exfalso.
    pose proof (binary64_ratio_ge_half _ _ (conj H0 H1) Hlen Hhalf) as Hge.
    by apply (Qlt_not_le _ _ Hlt).
  - intros Hthird. exfalso.
    pose proof (binary64_ratio_le_third _ _ H0 Hlen Hthird) as Hlt.
    by apply (Qlt_not_le _ _ Hlt).
Qed.

Lemma infer_series_fallback s :
  falls_through (numeric_inference (take SAMPLE_SIZE (dropna s)) s) ->
  falls_through (datetime_inference (take SAMPLE_SIZE (dropna s)) s) ->
  0 < len s /\
  infer_series s = categorical_inference (take SAMPLE_SIZE (dropna s)) s.
Proof.
  intros (e1 & Hn & He1) (e2 & Hd & He2).
  split; [by eapply numeric_inference_Raise |].
  unfold infer_series, try_except_value_type.
  by rewrite Hn, He1, Hd, He2.
Qed.

(** X15.  A column that reaches the fallback and whose distinct values
    (the null counting as one) are at least half as many as its cells is
    [text]; so is every such column of one or two cells, and every such
    column whose cells all differ: a short column is never a
    [category]. *)
Theorem half_distinct_is_text s :
  let sample := take SAMPLE_SIZE (dropna s) in
  falls_through (numeric_inference sample s) ->
  falls_through (datetime_inference sample s) ->
  len s <= 2 * len (unique s) \/ len s <= 2 \/ NoDup s ->
  exists info, infer_series s = Return info /\ type info = text.
Proof.
  intros sample Hn Hd Hcases.
  destruct (infer_series_fallback s Hn Hd) as [Hlen ->].
  destruct (categorical_inference_kind s Hlen) as (info & Hi & Htext & _).
  exists info. split; [exact Hi |]. apply Htext.
  destruct Hcases as [H | [H | H]]; [exact H | |].
  - assert (Hne : s <> []) by (intros ->; unfold len in Hlen; simpl in Hlen; lia).
    pose proof (len_unique_pos s Hne). lia.
  - assert (Hall : len s <= len (unique s)).
    { unfold len. apply inj_le, submseteq_length, NoDup_submseteq; [done |].
      intros c. by rewrite elem_of_unique. }
    pose proof (len_nonneg s). lia.
Qed.

(** X16.  A column that reaches the fallback and whose distinct values
    (the null counting as one) are at most a third as many as its cells
    is a [category]; so is every such column of three cells or more
    that repeats one value throughout. *)
Theorem third_distinct_is_category s :
  let sample := take SAMPLE_SIZE (dropna s) in
  falls_through (numeric_inference sample s) ->
  falls_through (datetime_inference sample s) ->
  3 * len (unique s) <= len s \/
  (3 <= len s /\ exists c, Forall (fun x => x = c) s) ->
  exists info, infer_series s = Return info /\ type info = category.
Proof.
  intros sample Hn Hd Hcases.
  destruct (infer_series_fallback s Hn Hd) as [Hlen ->].
  destruct (categorical_inference_kind s Hlen) as (info & Hi & _ & Hcat).
  exists info. split; [exact Hi |]. apply Hcat.
  destruct Hcases as [H | (H3 & c & Hconst)]; [exact H |].
  assert (Hone : len (unique s) <= 1).
  { unfold len. change 1 with (Z.of_nat (length [c])).
    apply inj_le, submseteq_length, NoDup_submseteq; [apply NoDup_unique |].
    intros x Hx. rewrite elem_of_unique in Hx.
    rewrite Forall_forall in Hconst. rewrite (Hconst x Hx). by left. }
  lia.
Qed.

End Entries.

(** ** The integrality test of the numeric branch *)

Section Integrality.
Context {value : Type} `{!Pandas value}.
Implicit Types (s : Series value) (pre post : list value).

(** X17.  The numeric branch reads the non-null cells in order and
    stops at the first one whose float has a fractional part: the
    column is then [float], whatever [float] would do on the cells
    after it.  When [float] raises on a cell before any fraction was
    met, a [ValueError] or [TypeError] abandons the numeric branch
    although [pd.to_numeric] accepted the whole column, and any other
    exception becomes the error of the column. *)
Theorem integrality_test_stops_at_first_fraction s pre post (x : value)
    (fs : list pyfloat) :
  let sample := take SAMPLE_SIZE (dropna s) in
  to_numeric s = Return () ->
  dropna s = (pre ++ x :: post)%list ->
  Forall2 (fun v f => py_float v = Return f) pre fs ->
  forallb is_integer fs = true ->
  (forall f, py_float x = Return f -> is_integer f = false ->
             infer_series s = Return (typed float sample s None)) /\
  (forall e, py_float x = Raise e -> is_value_or_type_error e = true ->
             falls_through (numeric_inference sample s)) /\
  (forall e, py_float x = Raise e -> is_value_or_type_error e = false ->
             infer_series s = Raise e /\
             try_except (infer_series s) error_info = error_info e).
Proof.
  intros sample Hnum Hsplit Hpre Hint.
  assert (Htest : all_is_integer (dropna s) = all_is_integer (x :: post)).
  { rewrite Hsplit. by apply (all_is_integer_skip pre _ fs). }
  assert (Hbranch : numeric_inference sample s
                    = all_is_integer (x :: post)
                      ≫= (fun b : bool =>
                            Return (typed (if b then integer else float)
                                      sample s None))).
  { unfold numeric_inference. rewrite Hnum, Htest. reflexivity. }
  split; [| split].
  - intros f Hx Hf. unfold infer_series. fold sample. rewrite Hbranch.
    cbn [all_is_integer]. rewrite Hx. simpl. by rewrite Hf.
  - intros e Hx He. exists e. split; [| exact He].
    rewrite Hbranch. cbn [all_is_integer]. by rewrite Hx.
  - intros e Hx He.
    assert (Hraise : infer_series s = Raise e).
    { unfold infer_series. fold sample. rewrite Hbranch.
      cbn [all_is_integer]. rewrite Hx. simpl. by rewrite He. }
    split; [exact Hraise |]. by rewrite Hraise.
Qed.

End Integrality.

(** ** File names and their extension *)

Section Names.
Implicit Types (s p e dir stem : string) (c : ascii).

Lemma length_append s1 s2 :
  String.length (s1 +:+ s2) = (String.length s1 + String.length s2)%nat.
Proof. induction s1 as [| c s1 IH]; [done |]. simpl. by rewrite IH. Qed.

Lemma append_cons c s1 s2 : String c s1 +:+ s2 = String c (s1 +:+ s2).
Proof. reflexivity. Qed.

Lemma append_assoc s1 s2 s3 : s1 +:+ s2 +:+ s3 = (s1 +:+ s2) +:+ s3.
Proof.
  induction s1 as [| c s1 IH]; [done |]. rewrite !append_cons. by rewrite IH.
Qed.

Lemma rfind_from_app c s1 s2 (i last : Z) :
  Path.rfind_from c (s1 +:+ s2) i last
  = Path.rfind_from c s2 (i + Z.of_nat (String.length s1))
      (Path.rfind_from c s1 i last).
Proof.
  revert i last; induction s1 as [| x s1 IH]; intros i last.
  - simpl. by rewrite Z.add_0_r.
  - rewrite append_cons. cbn [Path.rfind_from String.length]. rewrite IH.
    f_equal. lia.
Qed.

Lemma rfind_from_absent c s (i last : Z) :
  c ∉ list_ascii_of_string s -> Path.rfind_from c s i last = last.
Proof.
  revert i last; induction s as [| x s IH]; intros i last Hc; [done |].
  cbn [Path.rfind_from]. simpl in Hc.
  destruct (Ascii.eqb_spec x c) as [-> | _].
  - exfalso. apply Hc. by left.
  - apply IH. intros H. apply Hc. by right.
Qed.

Lemma char_at_app s1 c s2 :
  Path.char_at (s1 +:+ String c s2) (Z.of_nat (String.length s1)) = Some c.
Proof.
  unfold Path.char_at.
  destruct (Z.ltb_spec (Z.of_nat (String.length s1)) 0) as [H | _]; [lia |].
  rewrite Nat2Z.id. induction s1 as [| x s1 IH]; [done |]. exact IH.
Qed.

Lemma substring_all s : String.substring 0 (String.length s) s = s.
Proof. induction s as [| c s IH]; [done |]. simpl. by rewrite IH. Qed.

Lemma slice_from_app s1 s2 :
  Path.slice_from (s1 +:+ s2) (Z.of_nat (String.length s1)) = s2.
Proof.
  unfold Path.slice_from. rewrite Nat2Z.id, length_append.
  replace (String.length s1 + String.length s2 - String.length s1)%nat
    with (String.length s2) by lia.
  induction s1 as [| c s1 IH]; [apply substring_all |]. exact IH.
Qed.

Lemma not_dot_has_stem p (i : Z) (k : nat) c :
  Path.char_at p i = Some c -> c <> "."%char ->
  Path.has_stem p i (S k) = true.
Proof.
  intros Hc Hne. cbn [Path.has_stem]. rewrite Hc.
  destruct c as [[] [] [] [] [] [] [] []]; try reflexivity.
  by destruct Hne.
Qed.

(** The separator index of a directory prefix. *)
Lemma rfind_sep_dir dir :
  dir = "" \/ (exists d, dir = d +:+ "/") ->
  Path.rfind_from "/" dir 0 (-1) + 1 = Z.of_nat (String.length dir).
Proof.
  intros [-> | (d & ->)]; [done |].
  rewrite rfind_from_app, length_append. simpl. lia.
Qed.

(** X18.  A name made of a directory part (empty, or ending in [/]), a
    base name that does not start with a dot and holds no [/], and an
    extension that is [.csv] in any mix of cases, has exactly that
    extension for [os.path.splitext]; the base name may hold dots
    ([report.v2.CSV]).  Such a file is never turned away for its
    type. *)
Theorem csv_names_pass_the_extension_check dir stem e (sz : option Z) :
  let file := File (dir +:+ stem +:+ e) sz in
  Path.lower e = ".csv" ->
  dir = "" \/ (exists d, dir = d +:+ "/") ->
  (exists c t, stem = String c t /\ c <> "."%char) ->
  "/"%char ∉ list_ascii_of_string stem ->
  Path.splitext_ext (name file) = e /\
  validate_file file <> (false, Some invalid_type_message) /\
  validate_file file <> (false, Some "No file provided").
Proof.
  intros file Hlow Hdir (c & t & -> & Hc) Hsep.
  apply lower_is_csv in Hlow as (x & y & z & -> & Hx & Hy & Hz).
  set (ext := String "." (String x (String y (String z "")))).
  set (base := String c t) in *.
  assert (Hext : Path.splitext_ext (dir +:+ base +:+ ext) = ext).
  { pose proof (rfind_sep_dir dir Hdir) as Hsd.
    unfold Path.splitext_ext, Path.rfind.
    rewrite !rfind_from_app.
    rewrite (rfind_from_absent "/" base) by exact Hsep.
    assert (Hnosep : "/"%char ∉ list_ascii_of_string ext).
    { unfold ext. simpl. rewrite !elem_of_cons, elem_of_nil.
      destruct Hx as [-> | ->], Hy as [-> | ->], Hz as [-> | ->];
        intros [? | [? | [? | [? | ?]]]]; done. }
    rewrite (rfind_from_absent "/" ext) by exact Hnosep.
    assert (Hdot : forall i last,
               Path.rfind_from "." ext i last = i).
    { intros i last. unfold ext. cbn [Path.rfind_from].
      destruct Hx as [-> | ->], Hy as [-> | ->], Hz as [-> | ->];
        reflexivity. }
    rewrite Hdot.
    set (sd := Path.rfind_from "/" dir 0 (-1)) in *.
    assert (Hlt : (sd <? 0 + Z.of_nat (String.length dir)
                         + Z.of_nat (String.length base)) = true).
    { apply Z.ltb_lt. lia. }
    rewrite Hlt. cbn [andb].
    replace (sd + 1) with (Z.of_nat (String.length dir)) by lia.
    replace (Z.to_nat (0 + Z.of_nat (String.length dir)
                       + Z.of_nat (String.length base)
                       - Z.of_nat (String.length dir)))
      with (String.length base) by lia.
    unfold base at 2. cbn [String.length].
    rewrite (not_dot_has_stem _ _ _ c); [| | exact Hc].
    2:{ unfold base. cbn [String.append]. apply char_at_app. }
    replace (0 + Z.of_nat (String.length dir) + Z.of_nat (String.length base))
      with (Z.of_nat (String.length (dir +:+ base)))
      by (rewrite length_append; lia).
    rewrite append_assoc. apply slice_from_app. }
  assert (Hlower : Path.lower ext = ".csv").
  { apply lower_is_csv. by exists x, y, z. }
  split; [exact Hext |].
  assert (Ht : truthy file = true).
  { unfold truthy, file. cbn [name].
    destruct dir; reflexivity. }
  destruct (validate_file_cases file)
    as [[E H] | [[E H] | [[E H] | [[E H] | [E H]]]]].
  - congruence.
  - exfalso. destruct H as [_ H]. apply H.
    change (Path.lower (Path.splitext_ext (dir +:+ base +:+ ext)) = ".csv").
    by rewrite Hext.
  - rewrite E. split; discriminate.
  - rewrite E. split; discriminate.
  - rewrite E. split; discriminate.
Qed.

End Names.

Section NoExtension.
Implicit Types (s p dir dots rest : string) (c : ascii).

Lemma rfind_from_lt c s (i last : Z) :
  last < i -> Path.rfind_from c s i last < i + Z.of_nat (String.length s).
Proof.
  revert i last; induction s as [| x s IH]; intros i last Hl.
  - simpl. lia.
  - cbn [Path.rfind_from String.length].
    specialize (IH (i + 1) (if Ascii.eqb x c then i else last)).
    destruct (Ascii.eqb x c); lia.
Qed.

Lemma rfind_from_dots dots (i last : Z) :
  Forall (fun x => x = "."%char) (list_ascii_of_string dots) ->
  dots <> "" ->
  Path.rfind_from "." dots i last = i + Z.of_nat (String.length dots) - 1.
Proof.
  revert i last; induction dots as [| x dots IH]; intros i last Hd Hne;
    [done |].
  simpl in Hd. apply Forall_cons in Hd as [-> Hd].
  cbn [Path.rfind_from String.length]. cbn [Ascii.eqb Bool.eqb].
  destruct dots as [| y dots]; [simpl; lia |].
  rewrite IH by done. cbn [String.length]. lia.
Qed.

Lemma get_dots dots (j : nat) :
  Forall (fun x => x = "."%char) (list_ascii_of_string dots) ->
  (j < String.length dots)%nat ->
  String.get j dots = Some "."%char.
Proof.
  revert j; induction dots as [| x dots IH]; intros j Hd Hj;
    [simpl in Hj; lia |].
  simpl in Hd. apply Forall_cons in Hd as [-> Hd].
  destruct j as [| j]; [done |]. simpl. apply IH; [done |]. simpl in Hj. lia.
Qed.

Lemma get_app_right s1 s2 (j : nat) :
  String.get (String.length s1 + j) (s1 +:+ s2) = String.get j s2.
Proof. induction s1 as [| c s1 IH]; [done |]. exact IH. Qed.

Lemma get_app_left s1 s2 (j : nat) :
  (j < String.length s1)%nat ->
  String.get j (s1 +:+ s2) = String.get j s1.
Proof.
  revert j; induction s1 as [| c s1 IH]; intros j Hj; [simpl in Hj; lia |].
  destruct j as [| j]; [done |]. rewrite append_cons. simpl.
  apply IH. simpl in Hj. lia.
Qed.

Lemma only_dots_no_stem p (i : nat) (k : nat) :
  (forall j, (j < k)%nat -> String.get (i + j) p = Some "."%char) ->
  Path.has_stem p (Z.of_nat i) k = false.
Proof.
  revert i; induction k as [| k IH]; intros i Hd; [done |].
  cbn [Path.has_stem]. unfold Path.char_at.
  destruct (Z.ltb_spec (Z.of_nat i) 0) as [H | _]; [lia |].
  rewrite Nat2Z.id. specialize (Hd 0%nat ltac:(lia)) as H0.
  rewrite Nat.add_0_r in H0. rewrite H0.
  replace (Z.of_nat i + 1) with (Z.of_nat (S i)) by lia.
  apply IH. intros j Hj.
  replace (S i + j)%nat with (i + S j)%nat by lia. apply Hd. lia.
Qed.

(** X19.  A name whose base name holds no dot, or only leading dots
    ([data], [.csv], [..hidden], a name ending in [/]), has the empty
    extension for [os.path.splitext], so [validate_file] turns it away:
    for its type when the name is not empty, as a missing file when it
    is. *)
Theorem names_without_extension_are_rejected dir dots rest (sz : option Z) :
  let file := File (dir +:+ dots +:+ rest) sz in
  dir = "" \/ (exists d, dir = d +:+ "/") ->
  Forall (fun x => x = "."%char) (list_ascii_of_string dots) ->
  "."%char ∉ list_ascii_of_string rest ->
  "/"%char ∉ list_ascii_of_string rest ->
  Path.splitext_ext (name file) = "" /\
  validate_file file
  = (false, Some (if truthy file then invalid_type_message
                  else "No file provided")).
Proof.
  intros file Hdir Hdots Hnodot Hnosep.
  assert (Hext : Path.splitext_ext (dir +:+ dots +:+ rest) = "").
  { pose proof (rfind_sep_dir dir Hdir) as Hsd.
    unfold Path.splitext_ext, Path.rfind.
    rewrite !rfind_from_app.
    rewrite (rfind_from_absent "/" rest) by exact Hnosep.
    rewrite (rfind_from_absent "." rest) by exact Hnodot.
    assert (Hds : "/"%char ∉ list_ascii_of_string dots).
    { intros Hin. rewrite Forall_forall in Hdots.
      by specialize (Hdots _ Hin). }
    rewrite (rfind_from_absent "/" dots) by exact Hds.
    set (sd := Path.rfind_from "/" dir 0 (-1)) in *.
    destruct (decide (dots = "")) as [-> | Hne].
    - cbn [Path.rfind_from].
      assert (Hle : Path.rfind_from "." dir 0 (-1) <= sd).
      { destruct Hdir as [-> | (d & ->)]; [done |].
        unfold sd. rewrite !rfind_from_app. simpl.
        pose proof (rfind_from_lt "." d 0 (-1)). lia. }
      destruct (Z.ltb_spec sd (Path.rfind_from "." dir 0 (-1))); [lia | done].
    - rewrite rfind_from_dots by done.
      destruct (Z.ltb_spec sd
                  (0 + Z.of_nat (String.length dir)
                   + Z.of_nat (String.length dots) - 1)) as [_ | H];
        [| done].
      cbn [andb].
      replace (sd + 1) with (Z.of_nat (String.length dir)) by lia.
      rewrite only_dots_no_stem; [done |].
      intros j Hj. rewrite get_app_right, get_app_left by lia.
      apply get_dots; [done | lia]. }
  split; [exact Hext |].
  destruct (validate_file_cases file)
    as [[E H] | [[E H] | [[E H] | [[E H] | [E H]]]]].
  - rewrite E. by rewrite H.
  - rewrite E. destruct H as [H _]. by rewrite H.
  - exfalso. destruct H as (_ & H & _).
    change (Path.lower (Path.splitext_ext (dir +:+ dots +:+ rest)) = ".csv")
      in H.
    by rewrite Hext in H.
  - exfalso. destruct H as (_ & H & _).
    change (Path.lower (Path.splitext_ext (dir +:+ dots +:+ rest)) = ".csv")
      in H.
    by rewrite Hext in H.
  - exfalso. destruct H as (_ & H & _).
    change (Path.lower (Path.splitext_ext (dir +:+ dots +:+ rest)) = ".csv")
      in H.
    by rewrite Hext in H.
Qed.

End NoExtension.

(** ** Examples *)

Ltac absent :=
  let H := fresh in
  intros H; simpl in H;
  repeat (apply elem_of_cons in H as [H | H]; [discriminate H |]);
  by apply elem_of_nil in H.

Lemma first_decodable_encoding_decides_witness :
  ENCODINGS = ["utf-8"; "latin1"; "iso-8859-1"] /\
  undecodable Uploads.latin1_file "utf-8" /\
  process_file (Return upload) Uploads.latin1_file
  = process_file (Return upload) (fun _ => Return mixed_table).
Proof.
  assert (Hutf : undecodable Uploads.latin1_file "utf-8").
  { exists Uploads.undecodable_error. by split. }
  split; [reflexivity |]. split; [exact Hutf |].
  apply (first_decodable_encoding_decides infer_and_convert_types upload
           Uploads.latin1_file ["utf-8"] ["iso-8859-1"] "latin1").
  - reflexivity.
  - by constructor.
  - intros (e & He & _). discriminate He.
Defined.

Lemma undecodable_file_is_bad_request_witness :
  validate_file upload = (true, None) /\
  process_file (Return upload) Uploads.binary_file
  = Failure 400 (Some "Unable to decode file with supported encodings").
Proof.
  assert (Hf : validate_file upload = (true, None)) by reflexivity.
  split; [exact Hf |].
  apply (undecodable_file_is_bad_request infer_and_convert_types upload
           Uploads.binary_file Hf).
  repeat constructor; exists Uploads.undecodable_error; by split.
Defined.

Lemma loader_exception_to_response_witness :
  process_file (Return upload) Uploads.empty_file
  = Failure 400 (Some "The file is empty").
Proof.
  apply (loader_exception_to_response infer_and_convert_types upload
           Uploads.empty_file
           (Exc EmptyDataError "No columns to parse from file"));
    reflexivity.
Defined.

Lemma success_payload_within_limits_witness :
  exists data,
    process_file (Return upload) (fun _ => Return mixed_table) = Success data /\
    Payload.file_name data = "uploads/data.csv" /\
    1 <= Payload.total_rows data <= 1000000 /\
    1 <= Payload.total_columns data <= 100 /\
    (Payload.column_types data).*1 = Payload.columns data.
Proof.
  destruct (process_file (Return upload) (fun _ => Return mixed_table))
    as [data | code message] eqn:Hs; [| vm_compute in Hs; discriminate Hs].
  exists data. split; [reflexivity |].
  destruct (success_payload_within_limits upload _ data Hs)
    as (_ & Hname & _ & _ & _ & Hrows & Hcols & _ & _ & Hkeys).
  split; [exact Hname |]. split; [exact Hrows |].
  split; [exact Hcols | exact Hkeys].
Defined.

Lemma sample_data_is_the_first_rows_witness :
  exists data,
    process_file (Return upload) (fun _ => Return mixed_table) = Success data /\
    len (Payload.sample_data data) = Z.min 5 (Payload.total_rows data) /\
    Payload.sample_data data !! 1%nat
    = Some [("n", Some "2"); ("x", Some "2.5"); ("when", Some "2023-02-01");
            ("colour", None)].
Proof.
  destruct (process_file (Return upload) (fun _ => Return mixed_table))
    as [data | code message] eqn:Hs; [| vm_compute in Hs; discriminate Hs].
  exists data. split; [reflexivity |].
  destruct (sample_data_is_the_first_rows upload _ data Hs)
    as (df & Hr & Hlen & _ & Hrow).
  injection Hr as <-.
  split; [exact Hlen |].
  by rewrite (Hrow 1%nat _ ltac:(lia) eq_refl).
Defined.

Lemma failure_has_status_and_message_witness :
  process_file (Return upload) Uploads.binary_file
  = Failure 400 (Some "Unable to decode file with supported encodings") /\
  400 ∈ [400; 404; 500].
Proof.
  assert (Hs : process_file (Return upload) Uploads.binary_file
               = Failure 400
                   (Some "Unable to decode file with supported encodings"))
    by reflexivity.
  split; [exact Hs |].
  exact (proj1 (failure_has_status_and_message _ _ _ _ _ Hs)).
Defined.

Lemma repeated_label_gives_error_entry_witness :
  classify_column Uploads.repeated_labels "a"
  = error_info
      (Exc AttributeError "'DataFrame' object has no attribute 'tolist'") /\
  classify_column Uploads.repeated_labels "b"
  = try_except (infer_series [Some "x"]) error_info.
Proof.
  split.
  - apply (repeated_label_gives_error_entry Uploads.repeated_labels "a" 0);
      [reflexivity |].
    by exists 2%nat.
  - apply (repeated_label_gives_error_entry Uploads.repeated_labels "b" 1);
      [reflexivity |].
    intros [| [| [| j]]] Hj; first [reflexivity | discriminate Hj].
Defined.

Lemma frame_without_rows_is_all_integer_witness :
  rows Uploads.header_only = [] /\
  infer_and_convert_types Uploads.header_only
  = Return [("a", typed integer [] [] None); ("b", typed integer [] [] None)].
Proof.
  split; [reflexivity |].
  apply (frame_without_rows_is_all_integer Uploads.header_only);
    [reflexivity |].
  apply NoDup_cons. split; [absent |]. apply NoDup_singleton.
Defined.

Lemma entry_counts_fit_the_column_witness :
  infer_series sizes_with_gaps = Return sizes_info /\
  exists nulls distinct : Z,
    null_count sizes_info = Some nulls /\
    unique_count sizes_info = Some distinct /\
    nulls + len (dropna sizes_with_gaps) = len sizes_with_gaps /\
    0 <= distinct <= len sizes_with_gaps - nulls.
Proof.
  assert (Hs : infer_series sizes_with_gaps = Return sizes_info)
    by (vm_compute; reflexivity).
  split; [exact Hs |].
  destruct (entry_counts_fit_the_column sizes_with_gaps sizes_info Hs)
    as (nulls & distinct & sample & Hn & Hu & _ & Hsum & _ & Hd & _).
  exists nulls, distinct.
  split; [exact Hn |]. split; [exact Hu |]. split; [exact Hsum | exact Hd].
Defined.

Lemma half_distinct_is_text_witness :
  len eight_of_ten <= 2 * len (unique eight_of_ten) /\
  exists info, infer_series eight_of_ten = Return info /\ type info = text.
Proof.
  assert (Hlen : len eight_of_ten <= 2 * len (unique eight_of_ten))
    by (by vm_compute).
  split; [exact Hlen |].
  apply (half_distinct_is_text eight_of_ten).
  - apply falls_through_Raise. reflexivity.
  - apply falls_through_Raise. reflexivity.
  - by left.
Defined.

Lemma third_distinct_is_category_witness :
  3 * len (unique three_of_ten) <= len three_of_ten /\
  exists info, infer_series three_of_ten = Return info /\ type info = category.
Proof.
  assert (Hlen : 3 * len (unique three_of_ten) <= len three_of_ten)
    by (by vm_compute).
  split; [exact Hlen |].
  apply (third_distinct_is_category three_of_ten).
  - apply falls_through_Raise. reflexivity.
  - apply falls_through_Raise. reflexivity.
  - by left.
Defined.

Lemma integrality_test_stops_at_first_fraction_witness :
  dropna decimals = ["1"; "2.5"; "3"] /\
  infer_series decimals
  = Return (typed float (take SAMPLE_SIZE (dropna decimals)) decimals None).
Proof.
  split; [reflexivity |].
  destruct (integrality_test_stops_at_first_fraction
              decimals ["1"] ["3"] "2.5" [Finite 1]) as (Hfloat & _).
  - reflexivity.
  - reflexivity.
  - by repeat constructor.
  - reflexivity.
  - by apply (Hfloat (Finite (5 # 2))).
Defined.

Lemma csv_names_pass_the_extension_check_witness :
  Path.lower ".CSV" = ".csv" /\
  Path.splitext_ext "uploads/report.v2.CSV" = ".CSV" /\
  validate_file (File "uploads/report.v2.CSV" (Some 2048))
  <> (false, Some invalid_type_message).
Proof.
  split; [reflexivity |].
  destruct (csv_names_pass_the_extension_check
              "uploads/" "report.v2" ".CSV" (Some 2048))
    as (Hext & Htype & _).
  - reflexivity.
  - right. by exists "uploads".
  - by exists "r"%char, "eport.v2".
  - absent.
  - by split.
Defined.

Lemma names_without_extension_are_rejected_witness :
  Path.splitext_ext "uploads/.csv" = "" /\
  validate_file (File "uploads/.csv" (Some 2048))
  = (false, Some invalid_type_message).
Proof.
  apply (names_without_extension_are_rejected
           "uploads/" "." "csv" (Some 2048)).
  - right. by exists "uploads".
  - by repeat constructor.
  - absent.
  - absent.
Defined.
